(** * hardhat-deploy-ethers: the helpers of [src/internal/helpers.ts]

    A shallow embedding of the library linker ([collectLibrariesAndLink],
    [linkBytecode]), of the ABI gas annotation
    ([addGasToAbiMethodsIfNecessary]), of the contract-factory constructors,
    of the signer lookups (by name, by address, by list) and of the
    deployed-contract lookups, followed by the properties proved about
    them.

    Conventions of the embedding:
    - a JS string is a [string]; [substr] is [String.substring];
    - a JS object whose enumeration order is observable ([Object.entries],
      [Object.keys]) is an association list in enumeration order; an object
      used only through property reads is a [gmap];
    - a property read also finds what the object inherits from its
      prototype: the registry of named accounts, which is read under a name
      the caller chooses, carries the inherited names beside its own
      entries;
    - where it matters which array or object is written or shared, they
      are held by reference in a store ([Heap]);
    - the [Map] [linksToApply] is an association list in insertion order;
    - a [throw] (and a rejected promise) is the [Err] branch of [Result];
      [await] is sequencing in that monad;
    - byte offsets and lengths of link references are natural numbers. *)

From Stdlib Require Import Ascii String ZArith Lia HexadecimalString.
From stdpp Require Import base option list strings gmap.

Local Open Scope list_scope.
Set Warnings "-register-all".

(** ** Strings *)

(** The line feed of the template literals. *)
Definition LF : string := String (ascii_of_nat 10) EmptyString.

(** The double quote of the template literals. *)
Definition DQ : string := String (ascii_of_nat 34) EmptyString.

(** [s.substr(from, len)] for non-negative integer arguments. *)
Definition substr (s : string) (from len : nat) : string :=
  String.substring from len s.

(** [s.substr(from)]: everything from index [from] on. *)
Definition substr_from (s : string) (from : nat) : string :=
  String.substring from (String.length s - from) s.

(** [l.join(sep)]. *)
Definition join (sep : string) (l : list string) : string :=
  String.concat sep l.

(** The characters of [s] at the indices [from <= i < to]. *)
Definition charRange (s : string) (from to : nat) : string :=
  String.substring from (to - from) s.

(** [part] occurs in [s]. *)
Definition occurs_in (part s : string) : Prop :=
  exists before after, s = before +:+ part +:+ after.

(** ** Errors and results *)

(** The errors the helpers raise, one constructor per throw site, named
    after the error kinds of the specification; each carries the message
    the source builds.  The first six are [NomicLabsHardhatPluginError]s
    of the plugin, the next three plain [Error]s.  [TypeError] is the
    runtime's error for a property read on [undefined]; [Rejected] is a
    failure of an external collaborator. *)
Inductive Error : Type :=
  | InvalidAddress (message : string)
  | UnknownLibrary (message : string)
  | AmbiguousLibraryName (message : string)
  | DuplicateLinkEntry (message : string)
  | MissingLibraries (message : string)
  | AbstractContractError (message : string)
  | NoSignerFound (message : string)
  | NoNamedAccount (message : string)
  | NoDeploymentPluginInstalled (message : string)
  | TypeError
  | Rejected (reason : string).

Inductive Result (A : Type) : Type :=
  | Ok (a : A)
  | Err (e : Error).
Arguments Ok {A} a.
Arguments Err {A} e.

#[export] Instance Result_ret : MRet Result := fun A a => Ok a.
#[export] Instance Result_bind : MBind Result := fun A B f r =>
  match r with
  | Ok a => f a
  | Err e => Err e
  end.

Definition isOk {A} (r : Result A) : bool :=
  match r with Ok _ => true | Err _ => false end.

(** ** Artifacts *)

Module LinkReference.
(** One occurrence of a library address in the bytecode, in bytes. *)
Record t : Type := mk { start : nat; length : nat }.
End LinkReference.

(** A value of an ABI entry. *)
Inductive JsValue : Type :=
  | JsString (s : string)
  | JsNumber (n : Z)
  | JsBool (b : bool)
  | JsArray (elements : list JsValue)
  | JsObject (fields : list (string * JsValue)).

(** An ABI entry: an object read by property name. *)
Abbreviation AbiElement := (gmap string JsValue).

(** [linkReferences]: sourceName -> libraryName -> occurrences, each level
    in the order [Object.entries] enumerates it. *)
Abbreviation LinkReferences :=
  (list (string * list (string * list LinkReference.t))).

Module Artifact.
Record t : Type := mk {
  contractName : string;
  sourceName : string;
  abi : list AbiElement;
  bytecode : string;
  linkReferences : option LinkReferences;
}.
End Artifact.

(** [Libraries]: the user's bindings, identifier -> address, in the order
    [Object.entries] enumerates them. *)
Abbreviation Libraries := (list (string * string)).

Module Link.
Record t : Type := mk {
  sourceName : string;
  libraryName : string;
  address : string;
}.
End Link.

Module NeededLibrary.
Record t : Type := mk { sourceName : string; libName : string }.
End NeededLibrary.

(** ** The parts of ethers the helpers call *)

(** A JS number: a finite value [numerator / denominator], [NaN], or an
    infinity. *)
Inductive Numeric : Type :=
  | Finite (numerator : Z) (denominator : positive)
  | NaN
  | Infinity (negative : bool).

(** An integer as a JS number. *)
Definition integer (n : Z) : Numeric := Finite n 1.

(** The integer a JS number is, if it is one. *)
Definition integerValue (n : Numeric) : option Z :=
  match n with
  | Finite numerator denominator =>
      if (numerator mod Z.pos denominator =? 0)%Z
      then Some (numerator / Z.pos denominator)%Z
      else None
  | NaN | Infinity _ => None
  end.

(** A [BigNumber] is an integer of any size, and its arithmetic is exact:
    [BigNumber.from(gas).sub(1000000).toHexString()] is [toHexString] of
    the difference, once [BigNumber.from] has accepted the number. *)
Class Ethers : Type := {
  (** [utils.isAddress] *)
  isAddress : string -> bool;
  (** [BigNumber.from(n)] for a number [n]: the integer, or the error
      thrown for a number it does not accept *)
  BigNumber_from : Numeric -> Result Z;
  (** a number it accepts is an integer, and converted exactly *)
  BigNumber_from_exact :
    forall n value, BigNumber_from n = Ok value -> integerValue n = Some value;
  (** [b.toHexString()] for a [BigNumber] [b] *)
  toHexString : Z -> string;
  (** [new ContractFactory(abi, bytecode, signer)], for a signer object or
      [undefined]: returns, or throws on an ABI or a bytecode it rejects *)
  checkContractFactory : list AbiElement -> string -> Result unit;
}.

(** ** Objects and maps in enumeration order *)

(** [obj[key]]: the value of the first entry with that key. *)
Fixpoint obj_get {V} (key : string) (obj : list (string * V)) : option V :=
  match obj with
  | [] => None
  | (k, v) :: rest => if String.eqb k key then Some v else obj_get key rest
  end.

(** [map.has(key)] *)
Definition map_has {V} (key : string) (m : list (string * V)) : bool :=
  existsb (fun e => String.eqb (fst e) key) m.

(** [map.set(key, value)]: an existing key keeps its place, a new one goes
    last. *)
Fixpoint map_set {V} (key : string) (value : V) (m : list (string * V))
  : list (string * V) :=
  match m with
  | [] => [(key, value)]
  | (k, v) :: rest =>
      if String.eqb k key then (k, value) :: rest
      else (k, v) :: map_set key value rest
  end.

(** [[...map.values()]] *)
Definition map_values {V} (m : list (string * V)) : list V := map snd m.

(** ** The library linker *)

(** [`${lib.sourceName}:${lib.libName}`] *)
Definition fqn (lib : NeededLibrary.t) : string :=
  NeededLibrary.sourceName lib +:+ ":" +:+ NeededLibrary.libName lib.

(** The list of [* name] lines of the error messages. *)
Definition bullets (names : list string) : string :=
  join LF (map (fun x => "* " +:+ x) names).

(** Step 1: one needed library per (sourceName, libName) key pair. *)
Definition neededLibraries (artifact : Artifact.t) : list NeededLibrary.t :=
  match Artifact.linkReferences artifact with
  | Some linkReferences =>
      flat_map (fun '(sourceName, sourceLibraries) =>
                  map (fun '(libName, _) => NeededLibrary.mk sourceName libName)
                      sourceLibraries)
               linkReferences
  | None => []
  end.

Definition matchesLibrary (linkedLibraryName : string) (lib : NeededLibrary.t)
  : bool :=
  String.eqb (NeededLibrary.libName lib) linkedLibraryName
  || String.eqb (fqn lib) linkedLibraryName.

Definition invalidAddressMessage (artifact : Artifact.t)
    (linkedLibraryName linkedLibraryAddress : string) : string :=
  "You tried to link the contract " +:+ Artifact.contractName artifact
  +:+ " with the library " +:+ linkedLibraryName
  +:+ ", but provided this invalid address: " +:+ linkedLibraryAddress.

Definition unknownLibraryMessage (artifact : Artifact.t)
    (neededLibraries : list NeededLibrary.t) (linkedLibraryName : string)
  : string :=
  let detailedMessage :=
    if 0 <? List.length neededLibraries
    then "The libraries needed are:" +:+ LF +:+ bullets (map fqn neededLibraries)
    else "This contract doesn't need linking any libraries." in
  "You tried to link the contract " +:+ Artifact.contractName artifact
  +:+ " with " +:+ linkedLibraryName +:+ ", which is not one of its libraries."
  +:+ LF +:+ detailedMessage.

Definition ambiguousLibraryMessage (artifact : Artifact.t)
    (linkedLibraryName : string)
    (matchingNeededLibraries : list NeededLibrary.t) : string :=
  "The library name " +:+ linkedLibraryName
  +:+ " is ambiguous for the contract " +:+ Artifact.contractName artifact +:+ "."
  +:+ LF +:+ "It may resolve to one of the following libraries:"
  +:+ LF +:+ bullets (map fqn matchingNeededLibraries)
  +:+ LF +:+ LF
  +:+ "To fix this, choose one of these fully qualified library names and replace where appropriate.".

Definition duplicateLinkMessage (neededLibrary : NeededLibrary.t) : string :=
  "The library names " +:+ NeededLibrary.libName neededLibrary +:+ " and "
  +:+ fqn neededLibrary
  +:+ " refer to the same library and were given as two separate library links."
  +:+ LF +:+ "Remove one of them and review your library links before proceeding.".

(** The needed fully-qualified names with no entry in [linksToApply]. *)
Definition missingLibraries (neededLibraries : list NeededLibrary.t)
    (linksToApply : list (string * Link.t)) : list string :=
  filter (fun libFQName => negb (map_has libFQName linksToApply))
         (map fqn neededLibraries).

Definition missingLibrariesMessage (artifact : Artifact.t)
    (missing : list string) : string :=
  "The contract " +:+ Artifact.contractName artifact
  +:+ " is missing links for the following libraries:"
  +:+ LF +:+ bullets missing
  +:+ LF +:+ LF
  +:+ "Learn more about linking contracts at https://hardhat.org/plugins/nomiclabs-hardhat-ethers.html#library-linking"
  +:+ LF.

(** [linkBytecode]'s inner loop: the occurrences of one library, patched
    one after the other into the running bytecode. *)
Definition patchOccurrence (address : string) (bytecode : string)
    (ref : LinkReference.t) : string :=
  let start := LinkReference.start ref in
  let length := LinkReference.length ref in
  substr bytecode 0 (2 + start * 2)
  +:+ substr_from address 2
  +:+ substr_from bytecode (2 + (start + length) * 2).

(** [artifact.linkReferences[sourceName][libraryName]]; a read through
    [undefined] raises. *)
Definition lookupLinkReferences (artifact : Artifact.t)
    (sourceName libraryName : string) : Result (list LinkReference.t) :=
  match Artifact.linkReferences artifact with
  | None => Err TypeError
  | Some linkReferences =>
      match obj_get sourceName linkReferences with
      | None => Err TypeError
      | Some sourceLibraries =>
          match obj_get libraryName sourceLibraries with
          | None => Err TypeError
          | Some refs => Ok refs
          end
      end
  end.

Fixpoint linkBytecodeFrom (artifact : Artifact.t) (libraries : list Link.t)
    (bytecode : string) : Result string :=
  match libraries with
  | [] => Ok bytecode
  | link :: rest =>
      linkReferences ←
        lookupLinkReferences artifact (Link.sourceName link)
                             (Link.libraryName link);
      linkBytecodeFrom artifact rest
        (fold_left (patchOccurrence (Link.address link)) linkReferences
                   bytecode)
  end.

Definition linkBytecode (artifact : Artifact.t) (libraries : list Link.t)
  : Result string :=
  linkBytecodeFrom artifact libraries (Artifact.bytecode artifact).

Section Linker.
Context `{Ethers}.

(** Step 2, one iteration of the loop over [Object.entries(libraries)]:
    the new state of [linksToApply], or the error thrown. *)
Definition resolveLibrary (artifact : Artifact.t)
    (neededLibraries : list NeededLibrary.t)
    (linksToApply : list (string * Link.t))
    (entry : string * string) : Result (list (string * Link.t)) :=
  let '(linkedLibraryName, linkedLibraryAddress) := entry in
  if negb (isAddress linkedLibraryAddress) then
    Err (InvalidAddress
           (invalidAddressMessage artifact linkedLibraryName
                                  linkedLibraryAddress))
  else
    let matchingNeededLibraries :=
      filter (matchesLibrary linkedLibraryName) neededLibraries in
    if List.length matchingNeededLibraries =? 0 then
      Err (UnknownLibrary
             (unknownLibraryMessage artifact neededLibraries
                                    linkedLibraryName))
    else if 1 <? List.length matchingNeededLibraries then
      Err (AmbiguousLibraryName
             (ambiguousLibraryMessage artifact linkedLibraryName
                                      matchingNeededLibraries))
    else
      match matchingNeededLibraries with
      | [] => Err TypeError
      | neededLibrary :: _ =>
          let neededLibraryFQN := fqn neededLibrary in
          if map_has neededLibraryFQN linksToApply then
            Err (DuplicateLinkEntry (duplicateLinkMessage neededLibrary))
          else
            Ok (map_set neededLibraryFQN
                  (Link.mk (NeededLibrary.sourceName neededLibrary)
                           (NeededLibrary.libName neededLibrary)
                           linkedLibraryAddress)
                  linksToApply)
      end.

(** The loop itself: it stops at the first error. *)
Fixpoint resolveLibraries (artifact : Artifact.t)
    (neededLibraries : list NeededLibrary.t)
    (libraries : Libraries)
    (linksToApply : list (string * Link.t))
  : Result (list (string * Link.t)) :=
  match libraries with
  | [] => Ok linksToApply
  | entry :: rest =>
      linksToApply' ←
        resolveLibrary artifact neededLibraries linksToApply entry;
      resolveLibraries artifact neededLibraries rest linksToApply'
  end.

(** Steps 3 and 4 on the links the loop produced. *)
Definition checkAndLink (artifact : Artifact.t)
    (linksToApply : list (string * Link.t)) : Result string :=
  let needed := neededLibraries artifact in
  if List.length linksToApply <? List.length needed then
    Err (MissingLibraries
           (missingLibrariesMessage artifact
              (missingLibraries needed linksToApply)))
  else linkBytecode artifact (map_values linksToApply).

Definition collectLibrariesAndLink (artifact : Artifact.t)
    (libraries : Libraries) : Result string :=
  linksToApply ←
    resolveLibraries artifact (neededLibraries artifact) libraries [];
  checkAndLink artifact linksToApply.

End Linker.

Arguments resolveLibrary : simpl never.

(** ** Gas annotation *)

(** [NetworkConfig.gas]: ["auto"], absent, or a number. *)
Inductive GasConfig : Type :=
  | GasAuto
  | GasUndefined
  | GasNumber (gas : Numeric).

Module NetworkConfig.
Record t : Type := mk { gas : GasConfig }.
End NetworkConfig.

(** [abiElement.type === "function"] *)
Definition isFunctionElement (abiElement : AbiElement) : bool :=
  match abiElement !! "type" with
  | Some (JsString type) => String.eqb type "function"
  | _ => false
  end.

Section Gas.
Context `{Ethers}.

(** The loop of [addGasToAbiMethodsIfNecessary]: one [push] per entry. *)
Definition pushWithGas (gasLimit : string)
    (modifiedAbi : list AbiElement) (abiElement : AbiElement)
  : list AbiElement :=
  if negb (isFunctionElement abiElement) then modifiedAbi ++ [abiElement]
  else modifiedAbi ++ [<["gas" := JsString gasLimit]> abiElement].

(** The ABI the pass returns, entry for entry; [BigNumber.from] may
    throw, before any entry is read. *)
Definition addGasToAbiMethodsIfNecessary (networkConfig : NetworkConfig.t)
    (abi : list AbiElement) : Result (list AbiElement) :=
  match NetworkConfig.gas networkConfig with
  | GasAuto | GasUndefined => Ok abi
  | GasNumber gas =>
      gas' ← BigNumber_from gas;
      let gasLimit := toHexString (gas' - 1000000) in
      Ok (fold_left (pushWithGas gasLimit) abi [])
  end.
End Gas.

(** The same pass over arrays and objects held by reference, to tell what
    it writes and what it shares. *)
Module Heap.

(** The arrays (each the references of its elements) and the objects of a
    program state. *)
Record Store : Type := mkStore {
  arrays : gmap nat (list nat);
  objects : gmap nat AbiElement;
}.

(** [[]]: a new, empty array. *)
Definition newArray (store : Store) : Store * nat :=
  let array := fresh (dom (arrays store)) in
  (mkStore (<[array := []]> (arrays store)) (objects store), array).

(** [{ ...object }] with the given members: a new object. *)
Definition newObject (store : Store) (members : AbiElement) : Store * nat :=
  let object := fresh (dom (objects store)) in
  (mkStore (arrays store) (<[object := members]> (objects store)), object).

(** [array.push(element)] *)
Definition push (store : Store) (array element : nat) : Store :=
  mkStore (alter (fun elements => elements ++ [element]) array (arrays store))
          (objects store).

Section Gas.
Context `{Ethers}.

(** One iteration of the loop.  A reference without an object stands for
    [null] or [undefined], on which the read of [abiElement.type] raises. *)
Definition pushWithGas (gasLimit : string) (modifiedAbi : nat)
    (store : Result Store) (abiElement : nat) : Result Store :=
  store ← store;
  match objects store !! abiElement with
  | None => Err TypeError
  | Some members =>
      if negb (isFunctionElement members) then
        Ok (push store modifiedAbi abiElement)
      else
        let '(store', copy) :=
          newObject store (<["gas" := JsString gasLimit]> members) in
        Ok (push store' modifiedAbi copy)
  end.

Definition addGasToAbiMethodsIfNecessary (networkConfig : NetworkConfig.t)
    (store : Store) (abi : nat) : Result (Store * nat) :=
  match NetworkConfig.gas networkConfig with
  | GasAuto | GasUndefined => Ok (store, abi)
  | GasNumber gas =>
      gas' ← BigNumber_from gas;
      let gasLimit := toHexString (gas' - 1000000) in
      let '(store', modifiedAbi) := newArray store in
      match arrays store' !! abi with
      | None => Err TypeError
      | Some elements =>
          store'' ←
            fold_left (pushWithGas gasLimit modifiedAbi) elements (Ok store');
          Ok (store'', modifiedAbi)
      end
  end.
End Gas.

End Heap.

(** ** Signers and contract factories *)

Definition noDeploymentPluginMessage : string :=
  "No Deployment Plugin Installed, try 'import " +:+ DQ +:+ "hardhat-deploy"
  +:+ DQ +:+ "'".

Definition abstractContractMessage (contractName : string) : string :=
  "You are trying to create a contract factory for the contract "
  +:+ contractName +:+ ", which is abstract and can't be deployed." +:+ LF
  +:+ "If you want to call a contract using " +:+ contractName
  +:+ " as its interface use the " +:+ DQ +:+ "getContractAt" +:+ DQ
  +:+ " function instead.".

Module NamedAccounts.
(** The object [getNamedAccounts()] answers with: its own entries, name to
    address, and the names of the members it inherits from its prototype
    (for a plain object those of [Object.prototype]: [toString],
    [constructor], ...), which are functions and objects. *)
Record t : Type := mk { own : gmap string string; inherited : gset string }.
End NamedAccounts.

(** What [namedAccounts[name]] evaluates to. *)
Inductive PropertyRead : Type :=
  | OwnAddress (address : string)
  | InheritedMember (name : string)
  | NotFound.

(** [namedAccounts[name]]: an own entry first, then the prototype. *)
Definition readNamedAccount (namedAccounts : NamedAccounts.t) (name : string)
  : PropertyRead :=
  match NamedAccounts.own namedAccounts !! name with
  | Some address => OwnAddress address
  | None =>
      if decide (name ∈ NamedAccounts.inherited namedAccounts)
      then InheritedMember name
      else NotFound
  end.

Section Environment.
Context `{Ethers}.
(** The signer handles of ethers; the helpers only pass them on. *)
Context {Signer : Type}.

(** [ethers.Signer | string] *)
Inductive SignerArg : Type :=
  | SignerObject (signer : Signer)
  | SignerAddress (address : string).

Record FactoryOptions : Type := mkFactoryOptions {
  signer : option SignerArg;
  libraries : option Libraries;
}.

(** [ethers.Signer | string | FactoryOptions] *)
Inductive SignerOrOptions : Type :=
  | AsSigner (signer : Signer)
  | AsAddress (address : string)
  | AsOptions (options : FactoryOptions).

(** What [new ContractFactory(abi, bytecode, signer)] was given. *)
Record ContractFactory : Type := mkContractFactory {
  factoryAbi : list AbiElement;
  factoryBytecode : string;
  factorySigner : option Signer;
}.

(** The collaborators reached through [hre].  An absent plugin member is
    [None]; a signer the provider answers with [undefined] is [None]. *)
Record HardhatRuntimeEnvironment : Type := mkHre {
  (** [SignerWithAddress.create(hre.ethers.provider.getSigner(account))] *)
  createSigner : string -> Result (option Signer);
  (** the same call handed, in place of an address, the member that the
      prototype of the registry has under the given name *)
  createSignerOfMember : string -> Result (option Signer);
  (** [hre.ethers.getSigners()] *)
  ethersGetSigners : Result (list Signer);
  (** [hre.getNamedAccounts], when the deployment plugin is installed *)
  getNamedAccounts : option (Result NamedAccounts.t);
  (** [hre.deployments.getArtifact], when the plugin is installed *)
  deploymentsGetArtifact : option (string -> Result Artifact.t);
  (** [hre.artifacts.readArtifact] *)
  artifactsReadArtifact : string -> Result Artifact.t;
  (** [hre.network.config] *)
  networkConfig : NetworkConfig.t;
}.

Definition _getSigner (hre : HardhatRuntimeEnvironment) (account : string)
  : Result (option Signer) :=
  createSigner hre account.

(** [_getSigner] handed an inherited member of the registry. *)
Definition _getSignerOfMember (hre : HardhatRuntimeEnvironment)
    (name : string) : Result (option Signer) :=
  createSignerOfMember hre name.

Definition _getArtifact (hre : HardhatRuntimeEnvironment) (name : string)
  : Result Artifact.t :=
  match deploymentsGetArtifact hre with
  | Some getArtifact => getArtifact name
  | None => artifactsReadArtifact hre name
  end.

(** [null] is [Ok None]. *)
Definition getNamedSignerOrNull (hre : HardhatRuntimeEnvironment)
    (name : string) : Result (option Signer) :=
  match getNamedAccounts hre with
  | Some getNamedAccounts =>
      namedAccounts ← getNamedAccounts;
      match readNamedAccount namedAccounts name with
      | OwnAddress address =>
          if String.eqb address "" then
            Err (NoNamedAccount ("no account named " +:+ name))
          else
            signer ← _getSigner hre address;
            match signer with
            | Some signer => Ok (Some signer)
            | None => Ok None
            end
      | InheritedMember member =>
          signer ← _getSignerOfMember hre member;
          match signer with
          | Some signer => Ok (Some signer)
          | None => Ok None
          end
      | NotFound => Err (NoNamedAccount ("no account named " +:+ name))
      end
  | None => Err (NoDeploymentPluginInstalled noDeploymentPluginMessage)
  end.

Definition getNamedSigner (hre : HardhatRuntimeEnvironment) (name : string)
  : Result Signer :=
  signer ← getNamedSignerOrNull hre name;
  match signer with
  | Some signer => Ok signer
  | None => Err (NoSignerFound ("no signer for " +:+ name))
  end.

(** Everything that is neither [undefined] nor a [Signer] object counts
    as options, an address string too. *)
Definition isFactoryOptions (signerOrOptions : option SignerOrOptions)
  : bool :=
  match signerOrOptions with
  | None | Some (AsSigner _) => false
  | Some (AsAddress _) | Some (AsOptions _) => true
  end.

Definition getContractFactoryByAbiAndBytecode
    (hre : HardhatRuntimeEnvironment) (abi : list AbiElement)
    (bytecode : string) (signer : option SignerArg)
  : Result ContractFactory :=
  signer' ←
    match signer with
    | None => signers ← ethersGetSigners hre; Ok (head signers)
    | Some (SignerAddress address) => _getSigner hre address
    | Some (SignerObject signer) => Ok (Some signer)
    end;
  abiWithAddedGas ← addGasToAbiMethodsIfNecessary (networkConfig hre) abi;
  _ ← checkContractFactory abiWithAddedGas bytecode;
  Ok (mkContractFactory abiWithAddedGas bytecode signer').

Definition getContractFactoryByName (hre : HardhatRuntimeEnvironment)
    (contractName : string) (signerOrOptions : option SignerOrOptions)
  : Result ContractFactory :=
  artifact ← _getArtifact hre contractName;
  let '(signer, libraries) :=
    if isFactoryOptions signerOrOptions then
      match signerOrOptions with
      | Some (AsOptions options) =>
          (signer options, default [] (libraries options))
      | _ => (None, [])
      end
    else
      match signerOrOptions with
      | Some (AsSigner signer) => (Some (SignerObject signer), [])
      | _ => (None, [])
      end in
  if String.eqb (Artifact.bytecode artifact) "0x" then
    Err (AbstractContractError (abstractContractMessage contractName))
  else
    linkedBytecode ← collectLibrariesAndLink artifact libraries;
    getContractFactoryByAbiAndBytecode hre (Artifact.abi artifact)
                                       linkedBytecode signer.

(** The two overloads of [getContractFactory]. *)
Inductive FactoryRequest : Type :=
  | ByName (name : string) (signerOrOptions : option SignerOrOptions)
  | ByAbiAndBytecode (abi : list AbiElement) (bytecode : string)
                     (signer : option SignerArg).

Definition getContractFactory (hre : HardhatRuntimeEnvironment)
    (request : FactoryRequest) : Result ContractFactory :=
  match request with
  | ByName nameOrAbi signerOrOptions =>
      getContractFactoryByName hre nameOrAbi signerOrOptions
  | ByAbiAndBytecode nameOrAbi bytecode signer =>
      getContractFactoryByAbiAndBytecode hre nameOrAbi bytecode signer
  end.

(** The first part of [getContractAt] by name: a factory over the
    artifact's ABI with the bytecode ["0x"]. *)
Definition getContractAtFactory (hre : HardhatRuntimeEnvironment)
    (name : string) (signer : option SignerArg) : Result ContractFactory :=
  artifact ← _getArtifact hre name;
  getContractFactoryByAbiAndBytecode hre (Artifact.abi artifact) "0x" signer.
End Environment.

Arguments SignerArg : clear implicits.
Arguments FactoryOptions : clear implicits.
Arguments SignerOrOptions : clear implicits.
Arguments ContractFactory : clear implicits.
Arguments HardhatRuntimeEnvironment : clear implicits.
Arguments FactoryRequest : clear implicits.

(** ** A concrete instance for the examples *)

Definition isHexDigit (c : ascii) : bool :=
  let n := nat_of_ascii c in
  (48 <=? n) && (n <=? 57) || (97 <=? n) && (n <=? 102)
  || (65 <=? n) && (n <=? 70).

Definition isUpperCase (c : ascii) : bool :=
  let n := nat_of_ascii c in (65 <=? n) && (n <=? 90).

Definition isLowerCase (c : ascii) : bool :=
  let n := nat_of_ascii c in (97 <=? n) && (n <=? 122).

(** Accepts forty hexadecimal digits, with or without [0x] in front, as
    ethers does.  Of the addresses in mixed case ethers accepts those
    whose checksum is right; it is not computed here, and they are all
    refused. *)
Definition sampleIsAddress (s : string) : bool :=
  let digits := if String.prefix "0x" s then substr_from s 2 else s in
  let characters := list_ascii_of_string digits in
  (String.length digits =? 40)
  && forallb isHexDigit characters
  && negb (existsb isUpperCase characters && existsb isLowerCase characters).

(** [0x] and an even number of lowercase hexadecimal digits, after a minus
    sign for a negative number. *)
Definition sampleToHexString (n : Z) : string :=
  let digits :=
    HexadecimalString.NilZero.string_of_uint (N.to_hex_uint (Z.abs_N n)) in
  let padded :=
    if Nat.even (String.length digits) then digits else "0" +:+ digits in
  (if (n <? 0)%Z then "-0x" else "0x") +:+ padded.

(** Accepts the integers of magnitude below 2^53 - 1. *)
Definition sampleBigNumberFrom (n : Numeric) : Result Z :=
  match n with
  | Finite numerator denominator =>
      if negb (numerator mod Z.pos denominator =? 0)%Z then
        Err (Rejected "underflow")
      else
        let value := (numerator / Z.pos denominator)%Z in
        if (9007199254740991 <=? value)%Z || (value <=? -9007199254740991)%Z
        then Err (Rejected "overflow")
        else Ok value
  | NaN => Err (Rejected "invalid BigNumber string")
  | Infinity _ => Err (Rejected "overflow")
  end.

Definition hasMember (key : string) (abiElement : AbiElement) : bool :=
  match abiElement !! key with
  | Some _ => true
  | None => false
  end.

(** Of the checks ethers makes of an ABI, the one that a function entry
    tells its state mutability, by [stateMutability], [payable] or
    [constant]. *)
Definition sampleCheckAbi (abi : list AbiElement) : Result unit :=
  if forallb (fun abiElement =>
                negb (isFunctionElement abiElement)
                || hasMember "stateMutability" abiElement
                || hasMember "payable" abiElement
                || hasMember "constant" abiElement) abi
  then Ok tt
  else Err (Rejected "unable to determine stateMutability").

(** The bytecode, after [0x] (put in front when it is not there), has to
    be whole bytes in hexadecimal; then the ABI is checked. *)
Definition sampleCheckContractFactory (abi : list AbiElement)
    (bytecode : string) : Result unit :=
  let bytecodeHex :=
    if String.prefix "0x" bytecode then bytecode else "0x" +:+ bytecode in
  if Nat.even (String.length bytecodeHex)
     && forallb isHexDigit (list_ascii_of_string (substr_from bytecodeHex 2))
  then sampleCheckAbi abi
  else Err (Rejected "invalid bytecode").

Lemma sampleBigNumberFrom_exact (n : Numeric) (value : Z) :
  sampleBigNumberFrom n = Ok value -> integerValue n = Some value.
Proof.
  destruct n as [numerator denominator| |negative]; simpl; [|done..].
  destruct (numerator mod Z.pos denominator =? 0)%Z; simpl; [|done].
  destruct ((9007199254740991 <=? numerator / Z.pos denominator)%Z
            || (numerator / Z.pos denominator <=? -9007199254740991)%Z);
    [done|].
  by intros [= <-].
Qed.

Definition sampleEthers : Ethers :=
  {| isAddress := sampleIsAddress;
     BigNumber_from := sampleBigNumberFrom;
     BigNumber_from_exact := sampleBigNumberFrom_exact;
     toHexString := sampleToHexString;
     checkContractFactory := sampleCheckContractFactory |}.

Module Samples.
Definition addrA : string := "0xaaaaaaaaaaaaaaaaaaaaaaaaaaaaaaaaaaaaaaaa".
Definition addrB : string := "0xbbbbbbbbbbbbbbbbbbbbbbbbbbbbbbbbbbbbbbbb".
Definition slot (start : nat) : LinkReference.t := LinkReference.mk start 20.

(** 24 bytes of code: a two-byte header, a twenty-byte placeholder and a
    two-byte trailer. *)
Definition code : string :=
  "0x6080" +:+ "0000000000000000000000000000000000000000" +:+ "60a0".

(** Needs the one library [File1.sol:Lib], at byte 2. *)
Definition single : Artifact.t :=
  Artifact.mk "C" "C.sol" [] code
    (Some [("File1.sol", [("Lib", [slot 2])])]).

(** Needs [A.sol:A] and [B.sol:B]. *)
Definition twoLibs : Artifact.t :=
  Artifact.mk "C" "C.sol" []
    ("0x" +:+ "0000000000000000000000000000000000000000"
          +:+ "0000000000000000000000000000000000000000")
    (Some [("A.sol", [("A", [slot 0])]); ("B.sol", [("B", [slot 20])])]).

(** The short name [Lib] exists under two source files. *)
Definition sameName : Artifact.t :=
  Artifact.mk "C" "C.sol" []
    ("0x" +:+ "0000000000000000000000000000000000000000"
          +:+ "0000000000000000000000000000000000000000")
    (Some [("File1.sol", [("Lib", [slot 0])]);
           ("File2.sol", [("Lib", [slot 20])])]).

(** Needs no library. *)
Definition plain : Artifact.t :=
  Artifact.mk "C" "C.sol" [] "0x608060a0" (Some []).

(** A slot at byte 5 of two bytes of code. *)
Definition truncated : Artifact.t :=
  Artifact.mk "C" "C.sol" [] "0x6080"
    (Some [("File1.sol", [("Lib", [slot 5])])]).

(** A slot of one byte. *)
Definition shortSlot : Artifact.t :=
  Artifact.mk "C" "C.sol" [] code
    (Some [("File1.sol", [("Lib", [LinkReference.mk 2 1])])]).

(** The slots of [A] (bytes 0 to 19) and [B] (bytes 10 to 29) overlap. *)
Definition overlapping : Artifact.t :=
  Artifact.mk "C" "C.sol" []
    ("0x" +:+ "0000000000000000000000000000000000000000"
          +:+ "0000000000000000000000000000000000000000")
    (Some [("A.sol", [("A", [slot 0])]); ("B.sol", [("B", [slot 10])])]).

(** An abstract contract: no bytecode. *)
Definition abstract : Artifact.t :=
  Artifact.mk "Abstract" "Abstract.sol" [] "0x" (Some []).

(** [function f()] and [event E()]. *)
Definition functionEntry : AbiElement :=
  {[ "type" := JsString "function"; "name" := JsString "f";
     "inputs" := JsArray []; "outputs" := JsArray [];
     "stateMutability" := JsString "nonpayable" ]}.
(** A function entry that does not tell its state mutability. *)
Definition bareFunctionEntry : AbiElement :=
  {[ "type" := JsString "function"; "name" := JsString "f" ]}.
Definition eventEntry : AbiElement :=
  {[ "type" := JsString "event"; "name" := JsString "E";
     "inputs" := JsArray []; "anonymous" := JsBool false ]}.

(** The names a plain object inherits from [Object.prototype]. *)
Definition objectPrototype : gset string :=
  {[ "constructor"; "hasOwnProperty"; "isPrototypeOf";
     "propertyIsEnumerable"; "toLocaleString"; "toString"; "valueOf";
     "__proto__"; "__defineGetter__"; "__defineSetter__";
     "__lookupGetter__"; "__lookupSetter__" ]}.

(** An environment with the deployment plugin installed, two named
    accounts in a plain object, a fixed gas of 8000000, and addresses for
    signer handles.  The provider has no signer for [addrB]; handed a
    member of the prototype it answers with a signer all the same. *)
Definition hre : HardhatRuntimeEnvironment string :=
  {| createSigner := fun account =>
       if String.eqb account addrB then Ok None else Ok (Some account);
     createSignerOfMember := fun member => Ok (Some member);
     ethersGetSigners := Ok [addrA];
     getNamedAccounts :=
       Some (Ok (NamedAccounts.mk {[ "deployer" := addrA; "ghost" := addrB ]}
                                  objectPrototype));
     deploymentsGetArtifact := None;
     artifactsReadArtifact := fun name =>
       if String.eqb name "Abstract" then Ok abstract
       else if String.eqb name "C" then Ok single
       else Err (Rejected "no such artifact");
     networkConfig := NetworkConfig.mk (GasNumber (integer 8000000)) |}.

(** A fixed gas of 8000000, and a program state whose array 0 is the ABI
    of [functionEntry] (object 0) and [eventEntry] (object 1). *)
Definition fixedGas : NetworkConfig.t :=
  NetworkConfig.mk (GasNumber (integer 8000000)).
Definition store : Heap.Store :=
  Heap.mkStore {[ 0 := [0; 1] ]} {[ 0 := functionEntry; 1 := eventEntry ]}.

(** An address without its [0x]. *)
Definition unprefixed : string := "12aaaaaaaaaaaaaaaaaaaaaaaaaaaaaaaaaaaaaa".

Definition linkLib : Link.t := Link.mk "File1.sol" "Lib" addrA.
Definition linkA : Link.t := Link.mk "A.sol" "A" addrA.
Definition linkB : Link.t := Link.mk "B.sol" "B" addrB.
End Samples.

(** ** Notions used in the statements *)

Module HeapNotions.
(** What the pass leaves behind when it has annotated the array [abi] of
    [elements] into [modifiedAbi]: a new array of [annotated], every array
    and object of [store] as it was, and per entry either the entry itself
    or a new object of its members and the gas field. *)
Definition annotates (gasLimit : string) (store : Heap.Store)
    (elements : list nat) (store' : Heap.Store) (modifiedAbi : nat)
    (annotated : list nat) : Prop :=
  Heap.arrays store !! modifiedAbi = None
  /\ Heap.arrays store' !! modifiedAbi = Some annotated
  /\ (forall array,
        array <> modifiedAbi ->
        Heap.arrays store' !! array = Heap.arrays store !! array)
  /\ (forall object members,
        Heap.objects store !! object = Some members ->
        Heap.objects store' !! object = Some members)
  /\ Forall2 (fun element new =>
                exists members,
                  Heap.objects store !! element = Some members
                  /\ if isFunctionElement members
                     then Heap.objects store !! new = None
                          /\ Heap.objects store' !! new
                             = Some (<["gas" := JsString gasLimit]> members)
                     else new = element)
             elements annotated.
End HeapNotions.

#[export] Instance NeededLibrary_eq_dec : EqDecision NeededLibrary.t.
Proof. solve_decision. Defined.

(** The index [i] of the hex string lies in the characters of [ref]. *)
Definition inSlot (i : nat) (ref : LinkReference.t) : Prop :=
  2 + LinkReference.start ref * 2 <= i
  < 2 + (LinkReference.start ref + LinkReference.length ref) * 2.

(** The link names a library the artifact declares. *)
Definition declared (artifact : Artifact.t) (link : Link.t) : bool :=
  isOk (lookupLinkReferences artifact (Link.sourceName link)
                             (Link.libraryName link)).

(** The occurrences of a link, each with the address bound to it. *)
Definition slotsOf (artifact : Artifact.t) (link : Link.t)
  : list (LinkReference.t * string) :=
  match lookupLinkReferences artifact (Link.sourceName link)
                             (Link.libraryName link) with
  | Ok refs => map (fun ref => (ref, Link.address link)) refs
  | Err _ => []
  end.

(** All occurrences, in the order [linkBytecode] patches them. *)
Definition allSlots (artifact : Artifact.t) (links : list Link.t)
  : list (LinkReference.t * string) :=
  flat_map (slotsOf artifact) links.

(** A twenty-byte slot inside the bytecode, bound to a 42-character
    address. *)
Definition slotFits (bytecode : string) (slot : LinkReference.t * string)
  : bool :=
  (LinkReference.length slot.1 =? 20)
  && (String.length slot.2 =? 42)
  && (2 + (LinkReference.start slot.1 + LinkReference.length slot.1) * 2
      <=? String.length bytecode).

Definition slotsDisjoint (r1 r2 : LinkReference.t) : bool :=
  (LinkReference.start r1 + LinkReference.length r1 <=? LinkReference.start r2)
  || (LinkReference.start r2 + LinkReference.length r2
      <=? LinkReference.start r1).

Fixpoint pairwiseDisjoint (slots : list (LinkReference.t * string)) : bool :=
  match slots with
  | [] => true
  | slot :: rest =>
      forallb (fun slot' => slotsDisjoint slot.1 slot'.1) rest
      && pairwiseDisjoint rest
  end.

(** [linkBytecode]'s two loops as one pass over the occurrences. *)
Definition applySlots (bytecode : string)
    (slots : list (LinkReference.t * string)) : string :=
  fold_left (fun bytecode slot => patchOccurrence slot.2 bytecode slot.1)
            slots bytecode.

(** ** The other helpers: signers by address and by list, deployed
    contracts *)

(** The link-reference map is a proper object: no source name twice. *)
Definition properLinkReferences (artifact : Artifact.t) : Prop :=
  match Artifact.linkReferences artifact with
  | Some linkReferences => NoDup linkReferences.*1
  | None => True
  end.

(** The link the loop records for a needed library and an address. *)
Definition linkOf (lib : NeededLibrary.t) (address : string) : Link.t :=
  Link.mk (NeededLibrary.sourceName lib) (NeededLibrary.libName lib) address.

(** The libraries a [getContractFactory] by name links with. *)
Definition librariesOf {Signer : Type}
    (signerOrOptions : option (SignerOrOptions Signer)) : Libraries :=
  match signerOrOptions with
  | Some (AsOptions options) => default [] (libraries options)
  | _ => []
  end.

(** The throw sites of [getSignerOrNull] and [getContract], which [Error]
    has no constructor for, beside the errors above; both are plain
    [Error]s with the message of the source. *)
Inductive HelperError : Type :=
  | NeedAddress (message : string)
  | NoContractDeployed (message : string)
  | Raised (e : Error).

Inductive Outcome (A : Type) : Type :=
  | Returned (a : A)
  | Thrown (e : HelperError).
Arguments Returned {A} a.
Arguments Thrown {A} e.

#[export] Instance Outcome_bind : MBind Outcome := fun A B f r =>
  match r with
  | Returned a => f a
  | Thrown e => Thrown e
  end.

(** A result of the helpers above, as an outcome. *)
Definition liftResult {A} (r : Result A) : Outcome A :=
  match r with
  | Ok a => Returned a
  | Err e => Thrown (Raised e)
  end.

(** What an untyped collaborator may answer where an object is expected. *)
Inductive Nullable (A : Type) : Type :=
  | Undefined
  | Null
  | Value (a : A).
Arguments Undefined {A}.
Arguments Null {A}.
Arguments Value {A} a.

Module Deployment.
(** The members of a deployment the helpers read. *)
Record t : Type := mk { abi : list AbiElement; address : string }.
End Deployment.

(** What a contract is connected to: a signer, or [hre.ethers.provider]. *)
Inductive SignerOrProvider (Signer : Type) : Type :=
  | UseSigner (signer : Signer)
  | UseProvider.
Arguments UseSigner {Signer} signer.
Arguments UseProvider {Signer}.

(** The parts of ethers' [Contract] and [ContractFactory] objects the
    helpers call. *)
Class EthersContract (Signer Contract : Type) : Type := {
  (** [new Contract(address, abi, signerOrProvider)]: the contract, or the
      error thrown, as for an ABI it rejects *)
  newContract :
    string -> list AbiElement -> SignerOrProvider Signer -> Result Contract;
  (** [factory.attach(address)] *)
  attach : ContractFactory Signer -> string -> Result Contract;
  (** [contract.provider === null] *)
  providerIsNull : Contract -> bool;
  (** [contract.connect(hre.ethers.provider)] *)
  connectProvider : Contract -> Result Contract;
}.

(** [string | any[]] *)
Inductive NameOrAbi : Type :=
  | Name (name : string)
  | Abi (abi : list AbiElement).

Section Helpers.
Context `{Ethers} {Signer Contract : Type} `{EthersContract Signer Contract}.

(** [hre] with the collaborators the helpers above did not need.
    [hre.deployments] is there exactly when [deploymentsGetArtifact] is. *)
Record Environment : Type := mkEnvironment {
  hre : HardhatRuntimeEnvironment Signer;
  (** [hre.ethers.provider.listAccounts()] *)
  listAccounts : Result (list string);
  (** [hre.getUnnamedAccounts], when the deployment plugin is installed *)
  getUnnamedAccounts : option (Result (list string));
  (** [hre.deployments.getOrNull] *)
  deploymentsGetOrNull : string -> Result (Nullable Deployment.t);
}.

Definition getSignerOrNull (env : Environment) (address : string)
  : Outcome (option Signer) :=
  if String.eqb address "" then
    Thrown (NeedAddress "need to specify address")
  else
    signer ← liftResult (_getSigner (hre env) address);
    match signer with
    | None => Returned None
    | Some signer => Returned (Some signer)
    end.

Definition getSigner (env : Environment) (address : string)
  : Outcome Signer :=
  signer ← getSignerOrNull env address;
  match signer with
  | None => Thrown (Raised (NoSignerFound ("no signer for " +:+ address)))
  | Some signer => Returned signer
  end.

(** [Promise.all] over the calls, taken in order.  Which of several
    rejections is reported depends on timing; here it is the first by
    index. *)
Fixpoint promiseAll {A} (calls : list (Result A)) : Result (list A) :=
  match calls with
  | [] => Ok []
  | call :: rest =>
      a ← call;
      others ← promiseAll rest;
      Ok (a :: others)
  end.

Definition getSigners (env : Environment) : Result (list (option Signer)) :=
  accounts ← listAccounts env;
  promiseAll (map (fun account => _getSigner (hre env) account) accounts).

(** The signer the two loops below keep for an address: none for an
    empty address, for a lookup that raises, and for a lookup without a
    signer. *)
Definition signerIfAny (env : Environment) (address : string)
  : option Signer :=
  if String.eqb address "" then None
  else
    match _getSigner (hre env) address with
    | Ok (Some signer) => Some signer
    | Ok None => None
    | Err _ => None
    end.

(** One iteration of the loop of [getNamedSigners]; an error of the signer
    lookup is caught and dropped. *)
Definition addNamedSigner (env : Environment) (name address : string)
    (namedSigners : gmap string Signer) : gmap string Signer :=
  if String.eqb address "" then namedSigners
  else
    match _getSigner (hre env) address with
    | Ok (Some signer) => <[name := signer]> namedSigners
    | Ok None => namedSigners
    | Err _ => namedSigners
    end.

(** The result object is read by name, so it is a [gmap]; the order of
    its keys is not modelled. *)
Definition getNamedSigners (env : Environment)
  : Result (gmap string Signer) :=
  match getNamedAccounts (hre env) with
  | Some getNamedAccounts =>
      namedAccounts ← getNamedAccounts;
      Ok (map_fold (addNamedSigner env) ∅ (NamedAccounts.own namedAccounts))
  | None => Err (NoDeploymentPluginInstalled noDeploymentPluginMessage)
  end.

(** One iteration of the loop of [getUnnamedSigners]. *)
Definition pushUnnamedSigner (env : Environment)
    (unnamedSigners : list Signer) (address : string) : list Signer :=
  if String.eqb address "" then unnamedSigners
  else
    match _getSigner (hre env) address with
    | Ok (Some signer) => unnamedSigners ++ [signer]
    | Ok None => unnamedSigners
    | Err _ => unnamedSigners
    end.

Definition getUnnamedSigners (env : Environment) : Result (list Signer) :=
  match getUnnamedAccounts env with
  | Some getUnnamedAccounts =>
      unnamedAccounts ← getUnnamedAccounts;
      Ok (fold_left (pushUnnamedSigner env) unnamedAccounts [])
  | None => Err (NoDeploymentPluginInstalled noDeploymentPluginMessage)
  end.

Definition getContractAt (env : Environment) (nameOrAbi : NameOrAbi)
    (address : string) (signer : option (SignerArg Signer))
  : Result Contract :=
  match nameOrAbi with
  | Name nameOrAbi =>
      artifact ← _getArtifact (hre env) nameOrAbi;
      factory ←
        getContractFactoryByAbiAndBytecode (hre env) (Artifact.abi artifact)
                                           "0x" signer;
      contract ← attach factory address;
      if providerIsNull contract then connectProvider contract
      else Ok contract
  | Abi nameOrAbi =>
      signer' ←
        match signer with
        | None => signers ← ethersGetSigners (hre env); Ok (head signers)
        | Some (SignerAddress address) => _getSigner (hre env) address
        | Some (SignerObject signer) => Ok (Some signer)
        end;
      let signerOrProvider :=
        match signer' with
        | Some signer => UseSigner signer
        | None => UseProvider
        end in
      abiWithAddedGas ←
        addGasToAbiMethodsIfNecessary (networkConfig (hre env)) nameOrAbi;
      newContract address abiWithAddedGas signerOrProvider
  end.

(** [null] is [Ok None].  Only an [undefined] answer of [getOrNull] counts
    as not deployed; on [null] the read of [contract.abi] raises. *)
Definition getContractOrNull (env : Environment) (contractName : string)
    (signer : option (SignerArg Signer)) : Result (option Contract) :=
  match deploymentsGetArtifact (hre env) with
  | Some _ =>
      contract ← deploymentsGetOrNull env contractName;
      match contract with
      | Undefined => Ok None
      | Null => Err TypeError
      | Value contract =>
          contract' ←
            getContractAt env (Abi (Deployment.abi contract))
                          (Deployment.address contract) signer;
          Ok (Some contract')
      end
  | None => Err (NoDeploymentPluginInstalled noDeploymentPluginMessage)
  end.

Definition getContract (env : Environment) (contractName : string)
    (signer : option (SignerArg Signer)) : Outcome Contract :=
  contract ← liftResult (getContractOrNull env contractName signer);
  match contract with
  | None =>
      Thrown (NoContractDeployed
                ("No Contract deployed with name " +:+ contractName))
  | Some contract => Returned contract
  end.

End Helpers.

Arguments Environment : clear implicits.

Module MoreSamples.
(** A contract of the samples: what [new Contract] was given. *)
Definition SampleContract : Type :=
  string * list AbiElement * SignerOrProvider string.

(** [new Contract] checks the ABI as the factory does; [attach] connects
    to the factory's signer. *)
Definition sampleContracts : EthersContract string SampleContract :=
  {| newContract := fun address abi signerOrProvider =>
       _ ← sampleCheckAbi abi;
       Ok (address, abi, signerOrProvider);
     attach := fun factory address =>
       Ok (address, factoryAbi factory,
           match factorySigner factory with
           | Some signer => UseSigner signer
           | None => UseProvider
           end);
     providerIsNull := fun _ => false;
     connectProvider := fun contract => Ok contract |}.

Definition addrC : string := "0xcccccccccccccccccccccccccccccccccccccccc".
Definition addrD : string := "0xdddddddddddddddddddddddddddddddddddddddd".

(** An environment with the deployment plugin installed.  The provider
    has no signer for [addrB] and raises for [addrD]; the registry names
    four accounts, one of them with an empty address. *)
Definition pluginHre : HardhatRuntimeEnvironment string :=
  {| createSigner := fun account =>
       if String.eqb account Samples.addrB then Ok None
       else if String.eqb account addrD then Err (Rejected "unknown account")
       else Ok (Some account);
     createSignerOfMember := createSignerOfMember Samples.hre;
     ethersGetSigners := Ok [Samples.addrA];
     getNamedAccounts :=
       Some (Ok (NamedAccounts.mk
                   {[ "deployer" := Samples.addrA; "ghost" := Samples.addrB;
                      "broken" := addrD; "unset" := "" ]}
                   Samples.objectPrototype));
     deploymentsGetArtifact := Some (fun _ => Ok Samples.single);
     artifactsReadArtifact := fun _ => Ok Samples.plain;
     networkConfig := NetworkConfig.mk (GasNumber (integer 8000000)) |}.

(** Two accounts, five unnamed accounts, and the deployments [Token] and
    [Bare], the latter with an ABI ethers refuses; [getOrNull] answers
    [null] for [Broken] and [undefined] for any other name. *)
Definition env : Environment string :=
  {| hre := pluginHre;
     listAccounts := Ok [Samples.addrA; addrC];
     getUnnamedAccounts :=
       Some (Ok [addrC; ""; Samples.addrB; addrD; Samples.addrA]);
     deploymentsGetOrNull := fun name =>
       if String.eqb name "Token" then
         Ok (Value (Deployment.mk [Samples.functionEntry] Samples.addrB))
       else if String.eqb name "Bare" then
         Ok (Value (Deployment.mk [Samples.bareFunctionEntry] Samples.addrB))
       else if String.eqb name "Broken" then Ok Null
       else Ok Undefined |}.

(** The same without any signer account. *)
Definition lonelyEnv : Environment string :=
  {| hre :=
       {| createSigner := createSigner pluginHre;
          createSignerOfMember := createSignerOfMember pluginHre;
          ethersGetSigners := Ok [];
          getNamedAccounts := getNamedAccounts pluginHre;
          deploymentsGetArtifact := deploymentsGetArtifact pluginHre;
          artifactsReadArtifact := artifactsReadArtifact pluginHre;
          networkConfig := networkConfig pluginHre |};
     listAccounts := Ok [];
     getUnnamedAccounts := getUnnamedAccounts env;
     deploymentsGetOrNull := deploymentsGetOrNull env |}.

(** The sample [hre] where every name is the contract without
    libraries. *)
Definition plainHre : HardhatRuntimeEnvironment string :=
  {| createSigner := createSigner Samples.hre;
     createSignerOfMember := createSignerOfMember Samples.hre;
     ethersGetSigners := ethersGetSigners Samples.hre;
     getNamedAccounts := getNamedAccounts Samples.hre;
     deploymentsGetArtifact := None;
     artifactsReadArtifact := fun _ => Ok Samples.plain;
     networkConfig := networkConfig Samples.hre |}.

(** The addresses bound to [A.sol:A] and [B.sol:B]. *)
Definition addressOf (lib : NeededLibrary.t) : string :=
  if String.eqb (NeededLibrary.libName lib) "A" then Samples.addrA
  else Samples.addrB.
End MoreSamples.

(** Unfolds the sequencing of [Result]. *)
Ltac unfold_bind :=
  unfold mbind, mret, Result_bind, Result_ret in *; simpl in *.

(** * Properties *)

(** ** Strings *)

Lemma append_cons (c : ascii) (s1 s2 : string) :
  String c s1 +:+ s2 = String c (s1 +:+ s2).
Proof. reflexivity. Qed.

Lemma append_empty_l (s : string) : "" +:+ s = s.
Proof. reflexivity. Qed.

Lemma append_empty_r (s : string) : s +:+ "" = s.
Proof.
  induction s as [|c s IH]; [done|]. by rewrite append_cons, IH.
Qed.

Lemma length_append (s1 s2 : string) :
  String.length (s1 +:+ s2) = String.length s1 + String.length s2.
Proof.
  induction s1 as [|c s1 IH]; [done|]. rewrite append_cons. simpl.
  by rewrite IH.
Qed.

Lemma append_assoc (s1 s2 s3 : string) :
  (s1 +:+ s2) +:+ s3 = s1 +:+ s2 +:+ s3.
Proof.
  induction s1 as [|c s1 IH]; [done|]. by rewrite !append_cons, IH.
Qed.

Lemma length_substring (s : string) (n m : nat) :
  String.length (substring n m s) = m `min` (String.length s - n).
Proof.
  revert n m. induction s as [|c s IH]; intros [|n] [|m]; simpl; try done.
  by rewrite IH, Nat.sub_0_r.
Qed.

Lemma get_ge (s : string) (i : nat) :
  String.length s <= i -> get i s = None.
Proof.
  revert i. induction s as [|c s IH]; intros [|i] Hi; simpl in *;
    try done; [lia | apply IH; lia].
Qed.

Lemma get_append (s1 s2 : string) (i : nat) :
  get i (s1 +:+ s2)
  = if i <? String.length s1 then get i s1 else get (i - String.length s1) s2.
Proof.
  destruct (Nat.ltb_spec i (String.length s1)) as [Hlt|Hge].
  - symmetry. by apply append_correct1.
  - rewrite (append_correct2 s1 s2 (i - String.length s1)).
    f_equal. lia.
Qed.

Lemma get_substring (s : string) (n m i : nat) :
  get i (substring n m s) = if i <? m then get (i + n) s else None.
Proof.
  destruct (Nat.ltb_spec i m) as [Hlt|Hge].
  - by apply substring_correct1.
  - by apply substring_correct2.
Qed.

Lemma occurs_in_refl (s : string) : occurs_in s s.
Proof.
  exists "", "". by rewrite append_empty_l, append_empty_r.
Qed.

Lemma occurs_in_append_r (part s1 s2 : string) :
  occurs_in part s2 -> occurs_in part (s1 +:+ s2).
Proof.
  intros (before & after & ->). exists (s1 +:+ before), after.
  by rewrite append_assoc.
Qed.

Lemma occurs_in_append_l (part s1 s2 : string) :
  occurs_in part s1 -> occurs_in part (s1 +:+ s2).
Proof.
  intros (before & after & ->). exists before, (after +:+ s2).
  by rewrite !append_assoc.
Qed.

Lemma occurs_in_join (sep x : string) (l : list string) :
  x ∈ l -> occurs_in x (join sep l).
Proof.
  unfold join. induction l as [|y l IH]; intros Hx; [by inversion Hx|].
  apply elem_of_cons in Hx as [->|Hx].
  - destruct l as [|z l]; simpl; [apply occurs_in_refl|].
    apply occurs_in_append_l, occurs_in_refl.
  - destruct l as [|z l]; [by inversion Hx|].
    change (occurs_in x (y +:+ sep +:+ String.concat sep (z :: l))).
    by apply occurs_in_append_r, occurs_in_append_r, IH.
Qed.

Lemma occurs_in_bullets (name : string) (names : list string) :
  name ∈ names -> occurs_in ("* " +:+ name) (bullets names).
Proof.
  intros Hin. apply occurs_in_join.
  apply (list_elem_of_fmap_2 (fun x => "* " +:+ x)), Hin.
Qed.

(** Walks down a message to its list of [* name] lines. *)
Ltac find_bullets :=
  first [ apply occurs_in_append_l, occurs_in_bullets
        | apply occurs_in_append_r; find_bullets ].

(** ** Maps in insertion order *)

Lemma map_has_true {V} (key : string) (m : list (string * V)) :
  map_has key m = true <-> key ∈ m.*1.
Proof.
  unfold map_has. induction m as [|[k v] m IH]; simpl.
  - split; [done | by intros ?%elem_of_nil].
  - rewrite orb_true_iff, IH, elem_of_cons, String.eqb_eq.
    split; intros [->|?]; auto.
Qed.

Lemma map_has_false {V} (key : string) (m : list (string * V)) :
  map_has key m = false <-> key ∉ m.*1.
Proof.
  rewrite <- map_has_true. destruct (map_has key m); split; try done.
Qed.

Lemma map_set_fresh {V} (key : string) (value : V) (m : list (string * V)) :
  map_has key m = false -> map_set key value m = m ++ [(key, value)].
Proof.
  unfold map_has. induction m as [|[k v] m IH]; simpl; [done|].
  intros [Hk Hm]%orb_false_iff. rewrite Hk. by rewrite IH.
Qed.

(** ** The resolution loop *)

Section LinkerProperties.
Context `{Ethers}.

Lemma resolveLibraries_app (artifact : Artifact.t)
    (needed : list NeededLibrary.t) (l1 l2 : Libraries)
    (links : list (string * Link.t)) :
  resolveLibraries artifact needed (l1 ++ l2) links
  = links' ← resolveLibraries artifact needed l1 links;
    resolveLibraries artifact needed l2 links'.
Proof.
  revert links. induction l1 as [|entry l1 IH]; intros links; simpl; [done|].
  destruct (resolveLibrary artifact needed links entry); unfold_bind;
    [apply IH|done].
Qed.

(** A binding that passes every check of an iteration appends one link,
    keyed by the fully-qualified name of its only match. *)
Lemma resolveLibrary_Ok (artifact : Artifact.t)
    (needed : list NeededLibrary.t) (links links' : list (string * Link.t))
    (name address : string) :
  resolveLibrary artifact needed links (name, address) = Ok links' ->
  isAddress address = true
  /\ exists lib,
       filter (matchesLibrary name) needed = [lib]
       /\ map_has (fqn lib) links = false
       /\ links' = links ++ [(fqn lib,
                              Link.mk (NeededLibrary.sourceName lib)
                                      (NeededLibrary.libName lib) address)].
Proof.
  unfold resolveLibrary.
  destruct (isAddress address); simpl; [|done].
  destruct (filter (matchesLibrary name) needed) as [|lib [|lib' rest]];
    simpl; try done.
  destruct (map_has (fqn lib) links) eqn:Hhas; [done|].
  intros [= <-]. split; [done|]. exists lib.
  by rewrite map_set_fresh.
Qed.

(** The keys of [linksToApply] stay distinct, and each is the
    fully-qualified name of a needed library. *)
Lemma resolveLibraries_keys (artifact : Artifact.t)
    (needed : list NeededLibrary.t) (libraries : Libraries)
    (links links' : list (string * Link.t)) :
  resolveLibraries artifact needed libraries links = Ok links' ->
  NoDup links.*1 -> (forall key, key ∈ links.*1 -> key ∈ fqn <$> needed) ->
  NoDup links'.*1 /\ (forall key, key ∈ links'.*1 -> key ∈ fqn <$> needed).
Proof.
  revert links. induction libraries as [|[name address] libraries IH];
    intros links; simpl.
  - by intros [= <-].
  - destruct (resolveLibrary artifact needed links (name, address))
      as [links1|] eqn:Hstep; unfold_bind; [|done].
    apply resolveLibrary_Ok in Hstep as (_ & lib & Hmatch & Hfresh & ->).
    intros Hrest Hnodup Hsub. apply (IH _ Hrest).
    + rewrite (fmap_app fst). apply NoDup_app. split_and!; [done| |].
      * intros key Hkey [->|[]%elem_of_nil]%elem_of_cons.
        by apply map_has_false in Hfresh.
      * apply NoDup_singleton.
    + intros key. rewrite (fmap_app fst), elem_of_app.
      intros [Hkey|[->|[]%elem_of_nil]%elem_of_cons]; [by apply Hsub|].
      simpl. apply list_elem_of_fmap_2.
      assert (lib ∈ filter (matchesLibrary name) needed) as Hin
        by (rewrite Hmatch; apply list_elem_of_here).
      by apply list_elem_of_filter in Hin as [_ ?].
Qed.

(** Each link is filed under the fully-qualified name of its own
    library. *)
Lemma resolveLibraries_sound (artifact : Artifact.t)
    (needed : list NeededLibrary.t) (libraries : Libraries)
    (links links' : list (string * Link.t)) :
  resolveLibraries artifact needed libraries links = Ok links' ->
  Forall (fun entry =>
            NeededLibrary.mk (Link.sourceName entry.2)
                             (Link.libraryName entry.2) ∈ needed
            /\ entry.1 = fqn (NeededLibrary.mk (Link.sourceName entry.2)
                                               (Link.libraryName entry.2)))
         links ->
  Forall (fun entry =>
            NeededLibrary.mk (Link.sourceName entry.2)
                             (Link.libraryName entry.2) ∈ needed
            /\ entry.1 = fqn (NeededLibrary.mk (Link.sourceName entry.2)
                                               (Link.libraryName entry.2)))
         links'.
Proof.
  revert links. induction libraries as [|[name address] libraries IH];
    intros links; simpl.
  - by intros [= <-].
  - destruct (resolveLibrary artifact needed links (name, address))
      as [links1|] eqn:Hstep; unfold_bind; [|done].
    apply resolveLibrary_Ok in Hstep as (_ & lib & Hmatch & Hfresh & ->).
    intros Hrest Hall. apply (IH _ Hrest).
    apply Forall_app. split; [done|]. apply Forall_singleton. simpl.
    assert (lib ∈ filter (matchesLibrary name) needed) as Hin
      by (rewrite Hmatch; apply list_elem_of_here).
    apply list_elem_of_filter in Hin as [_ Hin].
    by destruct lib.
Qed.

(** A binding of the part of the loop that succeeded has its library on
    record. *)
Lemma resolveLibraries_records (artifact : Artifact.t)
    (needed : list NeededLibrary.t) (libraries : Libraries)
    (links links' : list (string * Link.t)) (name address : string)
    (lib : NeededLibrary.t) :
  resolveLibraries artifact needed libraries links = Ok links' ->
  (name, address) ∈ libraries ->
  filter (matchesLibrary name) needed = [lib] ->
  map_has (fqn lib) links' = true.
Proof.
  intros Hres Hin Hmatch.
  apply list_elem_of_split in Hin as (pre & post & ->).
  rewrite resolveLibraries_app in Hres.
  destruct (resolveLibraries artifact needed pre links) as [links0|];
    unfold_bind; [|done].
  destruct (resolveLibrary artifact needed links0 (name, address))
    as [links1|] eqn:Hstep; unfold_bind; [|done].
  apply resolveLibrary_Ok in Hstep as (_ & lib' & Hmatch' & _ & ->).
  assert (lib' = lib) as -> by congruence.
  assert (forall rest l l', resolveLibraries artifact needed rest l = Ok l' ->
            map_has (fqn lib) l = true -> map_has (fqn lib) l' = true)
    as Hgrow.
  { clear. intros rest. induction rest as [|[n a] rest IH]; intros l l'; simpl.
    - by intros [= <-].
    - destruct (resolveLibrary artifact needed l (n, a)) as [l1|] eqn:Hstep;
        unfold_bind; [|done].
      apply resolveLibrary_Ok in Hstep as (_ & lib1 & _ & _ & ->).
      intros Hrest Hhas. apply (IH _ _ Hrest).
      unfold map_has. rewrite existsb_app. apply orb_true_iff. by left. }
  apply (Hgrow _ _ _ Hres).
  unfold map_has. rewrite existsb_app. simpl.
  by rewrite String.eqb_refl, orb_true_r.
Qed.

(** The error of the first failing binding is the error of the call. *)
Lemma collectLibrariesAndLink_stops (artifact : Artifact.t)
    (pre post : Libraries) (entry : string * string)
    (links : list (string * Link.t)) (e : Error) :
  resolveLibraries artifact (neededLibraries artifact) pre [] = Ok links ->
  resolveLibrary artifact (neededLibraries artifact) links entry = Err e ->
  collectLibrariesAndLink artifact (pre ++ entry :: post) = Err e.
Proof.
  intros Hpre Hstep. unfold collectLibrariesAndLink.
  rewrite resolveLibraries_app, Hpre. unfold_bind. by rewrite Hstep.
Qed.

Lemma resolveLibrary_invalid (artifact : Artifact.t)
    (needed : list NeededLibrary.t) (links : list (string * Link.t))
    (name address : string) :
  isAddress address = false ->
  resolveLibrary artifact needed links (name, address)
  = Err (InvalidAddress (invalidAddressMessage artifact name address)).
Proof. intros Hinvalid. unfold resolveLibrary. by rewrite Hinvalid. Qed.

Lemma resolveLibrary_ambiguous (artifact : Artifact.t)
    (needed : list NeededLibrary.t) (links : list (string * Link.t))
    (name address : string) :
  isAddress address = true ->
  1 < length (filter (matchesLibrary name) needed) ->
  resolveLibrary artifact needed links (name, address)
  = Err (AmbiguousLibraryName
           (ambiguousLibraryMessage artifact name
              (filter (matchesLibrary name) needed))).
Proof.
  intros Hvalid Hmany. unfold resolveLibrary. rewrite Hvalid. simpl.
  destruct (Nat.eqb_spec (length (filter (matchesLibrary name) needed)) 0);
    [lia|].
  by destruct (Nat.ltb_spec 1 (length (filter (matchesLibrary name) needed)));
    [|lia].
Qed.

Lemma resolveLibrary_duplicate (artifact : Artifact.t)
    (needed : list NeededLibrary.t) (links : list (string * Link.t))
    (name address : string) (lib : NeededLibrary.t) :
  isAddress address = true ->
  filter (matchesLibrary name) needed = [lib] ->
  map_has (fqn lib) links = true ->
  resolveLibrary artifact needed links (name, address)
  = Err (DuplicateLinkEntry (duplicateLinkMessage lib)).
Proof.
  intros Hvalid Hmatch Hhas. unfold resolveLibrary.
  rewrite Hvalid, Hmatch. simpl. by rewrite Hhas.
Qed.

End LinkerProperties.

(** ** The linker's checks *)

Section LinkerChecks.
Context `{Ethers}.

(** C2: when the loop over the bindings ends with fewer resolved links
    than there are needed libraries, linking fails with MissingLibraries,
    and the message lists, as a [* name] line, every needed
    fully-qualified name that has no resolved link. *)
Theorem missing_libraries_reported (artifact : Artifact.t)
    (libraries : Libraries) (linksToApply : list (string * Link.t)) :
  resolveLibraries artifact (neededLibraries artifact) libraries []
  = Ok linksToApply ->
  length linksToApply < length (neededLibraries artifact) ->
  exists message,
    collectLibrariesAndLink artifact libraries
    = Err (MissingLibraries message)
    /\ message
       = missingLibrariesMessage artifact
           (missingLibraries (neededLibraries artifact) linksToApply)
    /\ forall lib,
         lib ∈ neededLibraries artifact ->
         map_has (fqn lib) linksToApply = false ->
         fqn lib ∈ missingLibraries (neededLibraries artifact) linksToApply
         /\ occurs_in ("* " +:+ fqn lib) message.
Proof.
  intros Hloop Hfewer. eexists. split_and!; [|reflexivity|].
  - unfold collectLibrariesAndLink. rewrite Hloop. unfold_bind.
    unfold checkAndLink.
    by destruct (Nat.ltb_spec (length linksToApply)
                   (length (neededLibraries artifact))); [|lia].
  - intros lib Hneeded Hunresolved.
    assert (fqn lib
            ∈ missingLibraries (neededLibraries artifact) linksToApply)
      as Hmissing.
    { unfold missingLibraries. apply list_elem_of_filter. split.
      - by rewrite Hunresolved.
      - by apply list_elem_of_fmap_2. }
    split; [done|]. unfold missingLibrariesMessage.
    by find_bullets.
Qed.

(** C3, as amended: a binding the loop reaches, whose address is valid and
    whose identifier matches more than one needed library, makes linking
    fail with AmbiguousLibraryName, and the message lists every matching
    fully-qualified name. *)
Theorem ambiguous_library_name (artifact : Artifact.t)
    (pre post : Libraries) (name address : string)
    (links : list (string * Link.t)) :
  resolveLibraries artifact (neededLibraries artifact) pre [] = Ok links ->
  isAddress address = true ->
  1 < length (filter (matchesLibrary name) (neededLibraries artifact)) ->
  exists message,
    collectLibrariesAndLink artifact (pre ++ (name, address) :: post)
    = Err (AmbiguousLibraryName message)
    /\ message
       = ambiguousLibraryMessage artifact name
           (filter (matchesLibrary name) (neededLibraries artifact))
    /\ forall lib,
         lib ∈ neededLibraries artifact ->
         matchesLibrary name lib = true ->
         occurs_in ("* " +:+ fqn lib) message.
Proof.
  intros Hpre Hvalid Hmany. eexists. split_and!; [|reflexivity|].
  - apply (collectLibrariesAndLink_stops _ _ _ _ _ _ Hpre).
    by apply resolveLibrary_ambiguous.
  - intros lib Hneeded Hmatch. unfold ambiguousLibraryMessage.
    find_bullets. apply list_elem_of_fmap_2, list_elem_of_filter.
    split; [by rewrite Hmatch | done].
Qed.

(** C4: a binding the loop reaches with a valid address and exactly one
    match, whose fully-qualified name an earlier binding of the same call
    resolved to, makes linking fail with DuplicateLinkEntry. *)
Theorem duplicate_link_entry (artifact : Artifact.t)
    (pre post : Libraries) (name address earlierName earlierAddress : string)
    (links : list (string * Link.t)) (lib earlierLib : NeededLibrary.t) :
  resolveLibraries artifact (neededLibraries artifact) pre [] = Ok links ->
  (earlierName, earlierAddress) ∈ pre ->
  filter (matchesLibrary earlierName) (neededLibraries artifact)
  = [earlierLib] ->
  isAddress address = true ->
  filter (matchesLibrary name) (neededLibraries artifact) = [lib] ->
  fqn lib = fqn earlierLib ->
  collectLibrariesAndLink artifact (pre ++ (name, address) :: post)
  = Err (DuplicateLinkEntry (duplicateLinkMessage lib)).
Proof.
  intros Hpre Hearlier Hearliermatch Hvalid Hmatch Hsame.
  apply (collectLibrariesAndLink_stops _ _ _ _ _ _ Hpre).
  apply resolveLibrary_duplicate; [done..|]. rewrite Hsame.
  by eapply resolveLibraries_records.
Qed.

(** C5, as amended: linking never succeeds when some binding has an
    invalid address; it fails with InvalidAddress for that binding, whatever
    its identifier, when every earlier binding resolved without error. *)
Theorem invalid_address_rejected (artifact : Artifact.t)
    (libraries : Libraries) (name address : string) :
  (name, address) ∈ libraries ->
  isAddress address = false ->
  isOk (collectLibrariesAndLink artifact libraries) = false
  /\ forall pre post links,
       libraries = pre ++ (name, address) :: post ->
       resolveLibraries artifact (neededLibraries artifact) pre []
       = Ok links ->
       collectLibrariesAndLink artifact libraries
       = Err (InvalidAddress (invalidAddressMessage artifact name address)).
Proof.
  intros Hin Hinvalid. split.
  - apply list_elem_of_split in Hin as (pre & post & ->).
    unfold collectLibrariesAndLink. rewrite resolveLibraries_app.
    destruct (resolveLibraries artifact (neededLibraries artifact) pre [])
      as [links|]; unfold_bind; [|done].
    by rewrite resolveLibrary_invalid.
  - intros pre post links -> Hpre.
    apply (collectLibrariesAndLink_stops _ _ _ _ _ _ Hpre).
    by apply resolveLibrary_invalid.
Qed.


(** C7: an artifact with an empty link-reference map, linked with no
    binding, comes back with its own bytecode. *)
Theorem no_op_linking (artifact : Artifact.t) :
  Artifact.linkReferences artifact = Some [] ->
  collectLibrariesAndLink artifact [] = Ok (Artifact.bytecode artifact).
Proof.
  intros Hempty. unfold collectLibrariesAndLink. simpl. unfold_bind.
  unfold checkAndLink, neededLibraries. by rewrite Hempty.
Qed.

End LinkerChecks.

(** *** The checks on concrete artifacts *)

(** Needing [A.sol:A] and [B.sol:B] with only [A] bound: MissingLibraries,
    naming [B.sol:B]. *)
Lemma missing_libraries_reported_witness :
  exists message,
    @collectLibrariesAndLink sampleEthers Samples.twoLibs
      [("A", Samples.addrA)]
    = Err (MissingLibraries message)
    /\ message
       = missingLibrariesMessage Samples.twoLibs ["B.sol:B"]
    /\ occurs_in "* B.sol:B" message.
Proof.
  destruct (@missing_libraries_reported sampleEthers Samples.twoLibs
              [("A", Samples.addrA)]
              [("A.sol:A", Link.mk "A.sol" "A" Samples.addrA)])
    as (message & Hfails & Hmessage & Hlisted);
    [reflexivity | simpl; lia |].
  exists message. split_and!; [exact Hfails | exact Hmessage |].
  apply (Hlisted (NeededLibrary.mk "B.sol" "B")); [|reflexivity].
  apply list_elem_of_further, list_elem_of_here.
Defined.

(** The bare name [Lib] against [File1.sol:Lib] and [File2.sol:Lib]:
    AmbiguousLibraryName, listing both. *)
Lemma ambiguous_library_name_witness :
  exists message,
    @collectLibrariesAndLink sampleEthers Samples.sameName
      [("Lib", Samples.addrA)]
    = Err (AmbiguousLibraryName message)
    /\ occurs_in "* File1.sol:Lib" message
    /\ occurs_in "* File2.sol:Lib" message.
Proof.
  destruct (@ambiguous_library_name sampleEthers Samples.sameName [] []
              "Lib" Samples.addrA [])
    as (message & Hfails & _ & Hlisted);
    [reflexivity | reflexivity | simpl; lia |].
  exists message. split_and!; [exact Hfails | |].
  - apply (Hlisted (NeededLibrary.mk "File1.sol" "Lib")); [|reflexivity].
    apply list_elem_of_here.
  - apply (Hlisted (NeededLibrary.mk "File2.sol" "Lib")); [|reflexivity].
    apply list_elem_of_further, list_elem_of_here.
Defined.

(** The same ambiguous identifier bound to an invalid address: the address
    check comes first, and the error is InvalidAddress. *)
Lemma ambiguous_library_name_counterexample :
  length (filter (matchesLibrary "Lib") (neededLibraries Samples.sameName))
  = 2
  /\ @collectLibrariesAndLink sampleEthers Samples.sameName
       [("Lib", "not-an-address")]
     = Err (InvalidAddress
              (invalidAddressMessage Samples.sameName "Lib" "not-an-address"))
  /\ ~ exists message,
         @collectLibrariesAndLink sampleEthers Samples.sameName
           [("Lib", "not-an-address")]
         = Err (AmbiguousLibraryName message).
Proof.
  split_and!; [reflexivity | reflexivity |].
  intros [message Hfails]. vm_compute in Hfails. discriminate Hfails.
Qed.

(** [Lib] and [File1.sol:Lib] both given for the one needed library:
    DuplicateLinkEntry. *)
Lemma duplicate_link_entry_witness :
  @collectLibrariesAndLink sampleEthers Samples.single
    [("Lib", Samples.addrA); ("File1.sol:Lib", Samples.addrB)]
  = Err (DuplicateLinkEntry
           (duplicateLinkMessage (NeededLibrary.mk "File1.sol" "Lib"))).
Proof.
  apply (@duplicate_link_entry sampleEthers Samples.single
           [("Lib", Samples.addrA)] [] "File1.sol:Lib" Samples.addrB
           "Lib" Samples.addrA
           [("File1.sol:Lib", Link.mk "File1.sol" "Lib" Samples.addrA)]
           (NeededLibrary.mk "File1.sol" "Lib")
           (NeededLibrary.mk "File1.sol" "Lib"));
    try reflexivity.
  apply list_elem_of_here.
Defined.

(** ["not-an-address"] is refused, for a name that matches and for one
    that does not. *)
Lemma invalid_address_rejected_witness :
  @collectLibrariesAndLink sampleEthers Samples.single
    [("Lib", "not-an-address")]
  = Err (InvalidAddress
           (invalidAddressMessage Samples.single "Lib" "not-an-address"))
  /\ @collectLibrariesAndLink sampleEthers Samples.single
       [("Nope", "not-an-address")]
     = Err (InvalidAddress
              (invalidAddressMessage Samples.single "Nope" "not-an-address")).
Proof.
  split.
  - apply (proj2 (@invalid_address_rejected sampleEthers Samples.single
                    [("Lib", "not-an-address")] "Lib" "not-an-address"
                    (list_elem_of_here _ _) eq_refl)
             [] [] [] eq_refl eq_refl).
  - apply (proj2 (@invalid_address_rejected sampleEthers Samples.single
                    [("Nope", "not-an-address")] "Nope" "not-an-address"
                    (list_elem_of_here _ _) eq_refl)
             [] [] [] eq_refl eq_refl).
Defined.

(** An invalid address after a binding for an unknown library: the earlier
    binding fails first, and the error is UnknownLibrary. *)
Lemma invalid_address_rejected_counterexample :
  sampleIsAddress "not-an-address" = false
  /\ @collectLibrariesAndLink sampleEthers Samples.single
       [("Nope", Samples.addrA); ("Lib", "not-an-address")]
     = Err (UnknownLibrary
              (unknownLibraryMessage Samples.single
                 (neededLibraries Samples.single) "Nope"))
  /\ ~ exists message,
         @collectLibrariesAndLink sampleEthers Samples.single
           [("Nope", Samples.addrA); ("Lib", "not-an-address")]
         = Err (InvalidAddress message).
Proof.
  split_and!; [reflexivity | reflexivity |].
  intros [message Hfails]. vm_compute in Hfails. discriminate Hfails.
Qed.


Lemma no_op_linking_witness :
  @collectLibrariesAndLink sampleEthers Samples.plain [] = Ok "0x608060a0".
Proof. apply (@no_op_linking sampleEthers Samples.plain eq_refl). Defined.

(** ** Patching the bytecode *)

Lemma slotFits_spec (bytecode : string) (slot : LinkReference.t * string) :
  slotFits bytecode slot = true ->
  LinkReference.length slot.1 = 20
  /\ String.length (substr_from slot.2 2) = 40
  /\ 2 + (LinkReference.start slot.1 + 20) * 2 <= String.length bytecode.
Proof.
  unfold slotFits. intros [[Hlen Haddr]%andb_true_iff Hin]%andb_true_iff.
  apply Nat.eqb_eq in Hlen, Haddr. apply Nat.leb_le in Hin.
  rewrite Hlen in Hin. split_and!; [done| |done].
  unfold substr_from. rewrite length_substring, Haddr. reflexivity.
Qed.

Lemma slotFits_length (b1 b2 : string) (slot : LinkReference.t * string) :
  String.length b1 = String.length b2 -> slotFits b1 slot = slotFits b2 slot.
Proof. intros Hlen. unfold slotFits. by rewrite Hlen. Qed.

Lemma slotsDisjoint_spec (r1 r2 : LinkReference.t) (i : nat) :
  slotsDisjoint r1 r2 = true -> inSlot i r1 -> ~ inSlot i r2.
Proof.
  unfold slotsDisjoint, inSlot.
  intros [Hle%Nat.leb_le|Hle%Nat.leb_le]%orb_true_iff; lia.
Qed.

(** One patch, character by character: the slot holds the stripped
    address, everything else is as before. *)
Lemma patchOccurrence_get (bytecode : string)
    (slot : LinkReference.t * string) (i : nat) :
  slotFits bytecode slot = true ->
  get i (patchOccurrence slot.2 bytecode slot.1)
  = if i <? 2 + LinkReference.start slot.1 * 2 then get i bytecode
    else if i <? 2 + (LinkReference.start slot.1 + 20) * 2
         then get (i - (2 + LinkReference.start slot.1 * 2))
                  (substr_from slot.2 2)
         else get i bytecode.
Proof.
  intros (Hlen & Haddr & Hin)%slotFits_spec. unfold patchOccurrence.
  rewrite Hlen. set (stripped := substr_from slot.2 2) in *.
  set (p := 2 + LinkReference.start slot.1 * 2).
  set (q := 2 + (LinkReference.start slot.1 + 20) * 2) in *.
  assert (q = p + 40) as Hq by (unfold p, q; lia).
  unfold substr, substr_from.
  rewrite get_append, length_substring.
  replace (p `min` (String.length bytecode - 0)) with p by lia.
  destruct (Nat.ltb_spec i p) as [Hlt|Hge].
  - rewrite get_substring. destruct (Nat.ltb_spec i p); [|lia].
    by rewrite Nat.add_0_r.
  - rewrite get_append, Haddr.
    destruct (Nat.ltb_spec i q) as [Hslot|Hafter].
    + by destruct (Nat.ltb_spec (i - p) 40); [|lia].
    + destruct (Nat.ltb_spec (i - p) 40); [lia|].
      rewrite get_substring.
      destruct (Nat.ltb_spec (i - p - 40) (String.length bytecode - q)).
      * f_equal. lia.
      * symmetry. apply get_ge. lia.
Qed.

Lemma patchOccurrence_length (bytecode : string)
    (slot : LinkReference.t * string) :
  slotFits bytecode slot = true ->
  String.length (patchOccurrence slot.2 bytecode slot.1)
  = String.length bytecode.
Proof.
  intros (Hlen & Haddr & Hin)%slotFits_spec. unfold patchOccurrence.
  rewrite Hlen, !length_append, Haddr. unfold substr, substr_from.
  rewrite !length_substring. lia.
Qed.

(** All patches: every slot holds its address, and no other character
    changed. *)
Lemma applySlots_spec (slots : list (LinkReference.t * string))
    (bytecode : string) :
  forallb (slotFits bytecode) slots = true ->
  pairwiseDisjoint slots = true ->
  String.length (applySlots bytecode slots) = String.length bytecode
  /\ (forall i,
        (forall slot, slot ∈ slots -> ~ inSlot i slot.1) ->
        get i (applySlots bytecode slots) = get i bytecode)
  /\ (forall slot i,
        slot ∈ slots -> inSlot i slot.1 ->
        get i (applySlots bytecode slots)
        = get (i - (2 + LinkReference.start slot.1 * 2))
              (substr_from slot.2 2)).
Proof.
  revert bytecode. induction slots as [|slot slots IH]; intros bytecode.
  - intros _ _. split_and!; [done..|]. by intros ? ? ?%elem_of_nil.
  - simpl. intros [Hfit Hfits]%andb_true_iff [Hapart Hdisj]%andb_true_iff.
    pose proof (patchOccurrence_length _ _ Hfit) as Hlen.
    destruct (IH (patchOccurrence slot.2 bytecode slot.1))
      as (IHlen & IHout & IHin); [|done|].
    { apply forallb_forall. intros s Hs.
      rewrite (slotFits_length _ bytecode) by done.
      rewrite forallb_forall in Hfits. by apply Hfits. }
    assert (forall i, ~ inSlot i slot.1 ->
              get i (patchOccurrence slot.2 bytecode slot.1) = get i bytecode)
      as Hother.
    { intros i Hout. rewrite patchOccurrence_get by done.
      destruct (slotFits_spec _ _ Hfit) as (Hl & _ & _).
      unfold inSlot in Hout. rewrite Hl in Hout.
      destruct (Nat.ltb_spec i (2 + LinkReference.start slot.1 * 2));
        [done|].
      by destruct (Nat.ltb_spec i (2 + (LinkReference.start slot.1 + 20) * 2));
        [lia|]. }
    split_and!.
    + by rewrite IHlen.
    + intros i Hout. rewrite IHout.
      * apply Hother, Hout, list_elem_of_here.
      * intros s Hs. by apply Hout, list_elem_of_further.
    + intros s i [->|Hs]%elem_of_cons Hi; [|by apply IHin].
      rewrite IHout.
      * rewrite patchOccurrence_get by done.
        destruct (slotFits_spec _ _ Hfit) as (Hl & _ & _).
        unfold inSlot in Hi. rewrite Hl in Hi.
        destruct (Nat.ltb_spec i (2 + LinkReference.start slot.1 * 2));
          [lia|].
        by destruct
             (Nat.ltb_spec i (2 + (LinkReference.start slot.1 + 20) * 2));
          [|lia].
      * intros s Hs. eapply slotsDisjoint_spec; [|done].
        rewrite forallb_forall in Hapart.
        by apply Hapart, list_elem_of_In.
Qed.

Lemma applySlots_app (bytecode : string)
    (l1 l2 : list (LinkReference.t * string)) :
  applySlots bytecode (l1 ++ l2) = applySlots (applySlots bytecode l1) l2.
Proof. unfold applySlots. by rewrite fold_left_app. Qed.

Lemma applySlots_one_address (address : string)
    (refs : list LinkReference.t) (bytecode : string) :
  applySlots bytecode (map (fun ref => (ref, address)) refs)
  = fold_left (patchOccurrence address) refs bytecode.
Proof.
  revert bytecode. unfold applySlots.
  induction refs as [|ref refs IH]; intros bytecode; simpl; [done|].
  by rewrite IH.
Qed.

(** [linkBytecode] on declared links is the single pass over all their
    occurrences. *)
Lemma linkBytecodeFrom_applySlots (artifact : Artifact.t)
    (links : list Link.t) (bytecode : string) :
  forallb (declared artifact) links = true ->
  linkBytecodeFrom artifact links bytecode
  = Ok (applySlots bytecode (allSlots artifact links)).
Proof.
  revert bytecode. induction links as [|link links IH]; intros bytecode;
    simpl; [done|].
  intros [Hdecl Hrest]%andb_true_iff. unfold declared in Hdecl.
  unfold slotsOf.
  destruct (lookupLinkReferences artifact (Link.sourceName link)
              (Link.libraryName link)) as [refs|]; [|done].
  unfold_bind. rewrite IH by done.
  by rewrite applySlots_app, applySlots_one_address.
Qed.

(** C1, as amended: when every link names a declared library, every slot
    is twenty bytes long, lies inside the bytecode and is bound to a
    42-character address, and no two slots overlap, [linkBytecode] returns
    a string of the same length in which each slot's character range
    [2 + start*2, 2 + (start+length)*2) holds the address without its
    first two characters, and every character outside the slots is the
    input's. *)
Theorem linkBytecode_patches (artifact : Artifact.t) (links : list Link.t) :
  forallb (declared artifact) links = true ->
  forallb (slotFits (Artifact.bytecode artifact)) (allSlots artifact links)
  = true ->
  pairwiseDisjoint (allSlots artifact links) = true ->
  exists linked,
    linkBytecode artifact links = Ok linked
    /\ String.length linked = String.length (Artifact.bytecode artifact)
    /\ (forall link refs ref,
          link ∈ links ->
          lookupLinkReferences artifact (Link.sourceName link)
                               (Link.libraryName link) = Ok refs ->
          ref ∈ refs ->
          charRange linked
            (2 + LinkReference.start ref * 2)
            (2 + (LinkReference.start ref + LinkReference.length ref) * 2)
          = substr_from (Link.address link) 2)
    /\ (forall i,
          (forall link refs ref,
             link ∈ links ->
             lookupLinkReferences artifact (Link.sourceName link)
                                  (Link.libraryName link) = Ok refs ->
             ref ∈ refs ->
             ~ inSlot i ref) ->
          get i linked = get i (Artifact.bytecode artifact)).
Proof.
  intros Hdecl Hfits Hdisj. eexists. split.
  { unfold linkBytecode. by apply linkBytecodeFrom_applySlots. }
  destruct (applySlots_spec _ _ Hfits Hdisj) as (Hlen & Hout & Hin).
  assert (forall link refs ref,
            link ∈ links ->
            lookupLinkReferences artifact (Link.sourceName link)
                                 (Link.libraryName link) = Ok refs ->
            ref ∈ refs ->
            (ref, Link.address link) ∈ allSlots artifact links) as Hslot.
  { intros link refs ref Hlink Hrefs Href. unfold allSlots.
    apply list_elem_of_In, in_flat_map. exists link.
    split; [by apply list_elem_of_In|]. unfold slotsOf. rewrite Hrefs.
    apply list_elem_of_In.
    by apply (list_elem_of_fmap_2 (fun ref => (ref, Link.address link))). }
  split_and!; [done| |].
  - intros link refs ref Hlink Hrefs Href.
    pose proof (Hslot _ _ _ Hlink Hrefs Href) as Hmember.
    rewrite forallb_forall in Hfits.
    destruct (slotFits_spec (Artifact.bytecode artifact)
                (ref, Link.address link))
      as (Hl & Haddr & _); [by apply Hfits, list_elem_of_In|].
    simpl in Hl, Haddr. unfold charRange. apply get_correct. intros j.
    rewrite get_substring, Hl.
    replace (2 + (LinkReference.start ref + 20) * 2
             - (2 + LinkReference.start ref * 2)) with 40 by lia.
    destruct (Nat.ltb_spec j 40) as [Hj|Hj].
    + rewrite (Hin _ _ Hmember) by (unfold inSlot; simpl; lia).
      simpl. f_equal. lia.
    + symmetry. apply get_ge. lia.
  - intros i Houtside. apply Hout. intros [ref address] Hmember.
    unfold allSlots in Hmember.
    apply list_elem_of_In, in_flat_map in Hmember as (link & Hlink & Hmember).
    unfold slotsOf in Hmember.
    destruct (lookupLinkReferences artifact (Link.sourceName link)
                (Link.libraryName link)) as [refs|] eqn:Hrefs;
      [|by destruct Hmember].
    apply list_elem_of_In, list_elem_of_fmap in Hmember
      as (ref' & [= -> ->] & Href).
    simpl. eapply Houtside; [by apply list_elem_of_In|done..].
Qed.

(** The placeholder of the sample contract, at bytes 2 to 21, replaced by
    the forty digits of the address; header and trailer untouched. *)
Lemma linkBytecode_patches_witness :
  exists linked,
    linkBytecode Samples.single [Samples.linkLib] = Ok linked
    /\ String.length linked = 50
    /\ charRange linked 6 46 = "aaaaaaaaaaaaaaaaaaaaaaaaaaaaaaaaaaaaaaaa"
    /\ charRange linked 0 6 = "0x6080"
    /\ charRange linked 46 50 = "60a0".
Proof.
  destruct (linkBytecode_patches Samples.single [Samples.linkLib]
              eq_refl eq_refl eq_refl)
    as (linked & Hlinked & Hlen & Hslots & _).
  exists linked. split_and!; [exact Hlinked | exact Hlen | | |].
  - apply (Hslots Samples.linkLib [Samples.slot 2] (Samples.slot 2));
      [apply list_elem_of_here | reflexivity | apply list_elem_of_here].
  - injection Hlinked as <-. reflexivity.
  - injection Hlinked as <-. reflexivity.
Defined.

(** Three artifacts on which the slots do not all hold their address
    afterwards: a slot past the end of the bytecode (the address is
    appended, and its range holds only part of it), a slot of one byte (forty
    characters take the place of two, and the rest of the code moves), and
    two overlapping slots (the later patch overwrites half of the earlier
    one). *)
Lemma linkBytecode_patches_counterexample :
  (linkBytecode Samples.truncated [Samples.linkLib]
   = Ok "0x6080aaaaaaaaaaaaaaaaaaaaaaaaaaaaaaaaaaaaaaaa"
   /\ charRange "0x6080aaaaaaaaaaaaaaaaaaaaaaaaaaaaaaaaaaaaaaaa" 12 52
      <> substr_from Samples.addrA 2)
  /\ (linkBytecode Samples.shortSlot [Samples.linkLib]
      = Ok ("0x6080aaaaaaaaaaaaaaaaaaaaaaaaaaaaaaaaaaaaaaaa"
            +:+ "0000000000000000000000000000000000000060a0")
      /\ ~ inSlot 8 (LinkReference.mk 2 1)
      /\ get 8 ("0x6080aaaaaaaaaaaaaaaaaaaaaaaaaaaaaaaaaaaaaaaa"
                +:+ "0000000000000000000000000000000000000060a0")
         <> get 8 (Artifact.bytecode Samples.shortSlot))
  /\ (linkBytecode Samples.overlapping [Samples.linkA; Samples.linkB]
      = Ok ("0x" +:+ "aaaaaaaaaaaaaaaaaaaa"
                 +:+ "bbbbbbbbbbbbbbbbbbbbbbbbbbbbbbbbbbbbbbbb"
                 +:+ "00000000000000000000")
      /\ charRange ("0x" +:+ "aaaaaaaaaaaaaaaaaaaa"
                         +:+ "bbbbbbbbbbbbbbbbbbbbbbbbbbbbbbbbbbbbbbbb"
                         +:+ "00000000000000000000") 2 42
         <> substr_from Samples.addrA 2).
Proof.
  split_and!; try reflexivity.
  - by apply String.eqb_neq.
  - unfold inSlot. simpl. lia.
  - by vm_compute.
  - by apply String.eqb_neq.
Qed.

(** ** Gas annotation *)

Section GasProperties.
Context `{Ethers}.

Lemma fold_pushWithGas (gasLimit : string) (abi modifiedAbi : list AbiElement) :
  fold_left (pushWithGas gasLimit) abi modifiedAbi
  = modifiedAbi
    ++ map (fun abiElement =>
              if isFunctionElement abiElement
              then <["gas" := JsString gasLimit]> abiElement
              else abiElement) abi.
Proof.
  revert modifiedAbi. induction abi as [|abiElement abi IH];
    intros modifiedAbi; simpl.
  - by rewrite app_nil_r.
  - rewrite IH. unfold pushWithGas.
    destruct (isFunctionElement abiElement); simpl; by rewrite <- app_assoc.
Qed.

Lemma newObject_fresh (store : Heap.Store) (members : AbiElement) :
  Heap.objects store !! (Heap.newObject store members).2 = None.
Proof. apply not_elem_of_dom, is_fresh. Qed.

Lemma newArray_fresh (store : Heap.Store) :
  Heap.arrays store !! (Heap.newArray store).2 = None.
Proof. apply not_elem_of_dom, is_fresh. Qed.

(** The loop over the entries: it appends one reference per entry to the
    new array, writes to no other array, and changes no object that was
    there; a function entry gets a new object, any other entry is pushed
    as it is. *)
Lemma fold_pushWithGas_heap (gasLimit : string) (modifiedAbi : nat)
    (elements : list nat) (store : Heap.Store) (pushed : list nat) :
  Forall (fun element => is_Some (Heap.objects store !! element)) elements ->
  Heap.arrays store !! modifiedAbi = Some pushed ->
  exists store' added,
    fold_left (Heap.pushWithGas gasLimit modifiedAbi) elements (Ok store)
    = Ok store'
    /\ Heap.arrays store' !! modifiedAbi = Some (pushed ++ added)
    /\ (forall array,
          array <> modifiedAbi ->
          Heap.arrays store' !! array = Heap.arrays store !! array)
    /\ (forall object members,
          Heap.objects store !! object = Some members ->
          Heap.objects store' !! object = Some members)
    /\ Forall2 (fun element new =>
                  forall members,
                    Heap.objects store !! element = Some members ->
                    if isFunctionElement members
                    then Heap.objects store !! new = None
                         /\ Heap.objects store' !! new
                            = Some (<["gas" := JsString gasLimit]> members)
                    else new = element)
               elements added.
Proof.
  revert store pushed.
  induction elements as [|element elements IH]; intros store pushed.
  - intros _ Hpushed. exists store, []. simpl.
    rewrite app_nil_r. by split_and!.
  - intros [[members Hmembers] Hrest]%Forall_cons Hpushed. simpl.
    unfold Heap.pushWithGas at 1. unfold_bind. rewrite Hmembers.
    destruct (isFunctionElement members) eqn:Hfunction; simpl.
    + pose proof (newObject_fresh store
                    (<["gas" := JsString gasLimit]> members)) as Hfresh.
      simpl in Hfresh.
      set (copy := fresh (dom (Heap.objects store))) in *.
      set (store1 :=
             Heap.push
               (Heap.mkStore (Heap.arrays store)
                  (<[copy := <["gas" := JsString gasLimit]> members]>
                     (Heap.objects store)))
               modifiedAbi copy).
      assert (forall object m,
                Heap.objects store !! object = Some m ->
                Heap.objects store1 !! object = Some m) as Hkept.
      { intros object m Hobject. simpl. rewrite lookup_insert_ne; [done|].
        intros <-. congruence. }
      destruct (IH store1 (pushed ++ [copy]))
        as (store' & added & Hrun & Harray & Hothers & Hobjects & Hentries).
      { eapply Forall_impl; [exact Hrest|]. intros r [m Hr]. eauto. }
      { simpl. by rewrite lookup_alter_eq, Hpushed. }
      exists store', (copy :: added). split_and!.
      * done.
      * by rewrite Harray, <- app_assoc.
      * intros array Hother. rewrite Hothers by done. simpl.
        by rewrite lookup_alter_ne.
      * intros object m Hobject. by apply Hobjects, Hkept.
      * constructor.
        -- intros m Hm. assert (m = members) as -> by congruence.
           rewrite Hfunction. split; [done|].
           apply Hobjects. simpl. by rewrite lookup_insert_eq.
        -- eapply Forall2_impl; [exact Hentries|].
           intros r new Hnew m Hr. specialize (Hnew m (Hkept _ _ Hr)).
           destruct (isFunctionElement m); [|done].
           destruct Hnew as [Hnone Hsome]. split; [|done].
           simpl in Hnone.
           destruct (decide (copy = new)) as [<-|Hne];
             [by rewrite lookup_insert_eq in Hnone|].
           by rewrite lookup_insert_ne in Hnone.
    + set (store1 := Heap.push store modifiedAbi element).
      destruct (IH store1 (pushed ++ [element]))
        as (store' & added & Hrun & Harray & Hothers & Hobjects & Hentries).
      { done. }
      { simpl. by rewrite lookup_alter_eq, Hpushed. }
      exists store', (element :: added). split_and!.
      * done.
      * by rewrite Harray, <- app_assoc.
      * intros array Hother. rewrite Hothers by done. simpl.
        by rewrite lookup_alter_ne.
      * done.
      * constructor; [|done].
        intros m Hm. assert (m = members) as -> by congruence.
        by rewrite Hfunction.
Qed.

Lemma Forall2_with_left {A B} (P : A -> Prop) (Q : A -> B -> Prop)
    (l : list A) (k : list B) :
  Forall P l -> Forall2 Q l k -> Forall2 (fun x y => P x /\ Q x y) l k.
Proof.
  intros HP HQ. induction HQ as [|x y l k Hxy _ IH]; [done|].
  apply Forall_cons in HP as [Hx HP]. constructor; [done | by apply IH].
Qed.

(** The pass on a number that converts, over an array of objects. *)
Lemma heap_annotates (networkConfig : NetworkConfig.t) (gas : Numeric)
    (gas' : Z) (store : Heap.Store) (abi : nat) (elements : list nat) :
  NetworkConfig.gas networkConfig = GasNumber gas ->
  BigNumber_from gas = Ok gas' ->
  Heap.arrays store !! abi = Some elements ->
  Forall (fun element => is_Some (Heap.objects store !! element)) elements ->
  exists store' modifiedAbi annotated,
    Heap.addGasToAbiMethodsIfNecessary networkConfig store abi
    = Ok (store', modifiedAbi)
    /\ HeapNotions.annotates (toHexString (gas' - 1000000))
         store elements store' modifiedAbi annotated.
Proof.
  intros Hgas Hconverted Habi Helements.
  unfold Heap.addGasToAbiMethodsIfNecessary. rewrite Hgas, Hconverted.
  unfold_bind.
  pose proof (newArray_fresh store) as Hnew. simpl in Hnew.
  set (modifiedAbi := fresh (dom (Heap.arrays store))) in *.
  assert (modifiedAbi <> abi) as Hother by congruence.
  rewrite lookup_insert_ne, Habi by done.
  destruct (fold_pushWithGas_heap (toHexString (gas' - 1000000)) modifiedAbi
              elements
              (Heap.mkStore (<[modifiedAbi := []]> (Heap.arrays store))
                            (Heap.objects store)) [])
    as (store' & added & Hrun & Harray & Hothers & Hobjects & Hentries).
  { done. }
  { simpl. by rewrite lookup_insert_eq. }
  rewrite Hrun. exists store', modifiedAbi, added. split; [done|].
  unfold HeapNotions.annotates. split_and!; try done.
  - intros array Hne. rewrite Hothers by done. simpl.
    by rewrite lookup_insert_ne.
  - eapply Forall2_impl;
      [exact (Forall2_with_left _ _ _ _ Helements Hentries)|].
    simpl. intros element new [[members Hmembers] Hnew'].
    exists members. split; [done | by apply Hnew'].
Qed.

(** The pass over references and the pass over values agree: they raise
    alike, and the array the first returns reads, entry for entry, as the
    list the second returns. *)
Lemma heap_pass_reads (networkConfig : NetworkConfig.t) (store : Heap.Store)
    (abi : nat) (elements : list nat) (values : list AbiElement) :
  Heap.arrays store !! abi = Some elements ->
  Forall2 (fun element members => Heap.objects store !! element = Some members)
          elements values ->
  match addGasToAbiMethodsIfNecessary networkConfig values with
  | Err e => Heap.addGasToAbiMethodsIfNecessary networkConfig store abi = Err e
  | Ok values' =>
      exists store' modifiedAbi annotated,
        Heap.addGasToAbiMethodsIfNecessary networkConfig store abi
        = Ok (store', modifiedAbi)
        /\ Heap.arrays store' !! modifiedAbi = Some annotated
        /\ Forall2 (fun new members =>
                      Heap.objects store' !! new = Some members)
                   annotated values'
  end.
Proof.
  intros Habi Hvalues.
  unfold addGasToAbiMethodsIfNecessary.
  destruct (NetworkConfig.gas networkConfig) as [| |gas] eqn:Hgas.
  - exists store, abi, elements.
    unfold Heap.addGasToAbiMethodsIfNecessary. by rewrite Hgas.
  - exists store, abi, elements.
    unfold Heap.addGasToAbiMethodsIfNecessary. by rewrite Hgas.
  - destruct (BigNumber_from gas) as [gas'|e] eqn:Hconverted; unfold_bind.
    + destruct (heap_annotates networkConfig gas gas' store abi elements)
        as (store' & modifiedAbi & annotated & Hrun & _ & Harray & _
            & Hobjects & Hentries); [done..| |].
      { eapply Forall2_Forall_l; [exact Hvalues|].
        apply Forall_true. intros member element Hmember. by exists member. }
      exists store', modifiedAbi, annotated. split_and!; [done..|].
      rewrite fold_pushWithGas, app_nil_l.
      clear Habi Hrun Harray.
      revert values Hvalues.
      induction Hentries as [|element new elements annotated Hnew _ IH];
        intros values Hvalues.
      * apply Forall2_nil_inv_l in Hvalues as ->. constructor.
      * apply Forall2_cons_inv_l in Hvalues
          as (members & rest & Hmembers & Hrest & ->).
        simpl. constructor; [|by apply IH].
        destruct Hnew as (members' & Hmembers' & Hnew).
        assert (members' = members) as -> by congruence.
        destruct (isFunctionElement members).
        -- by destruct Hnew.
        -- subst new. by apply Hobjects.
    + unfold Heap.addGasToAbiMethodsIfNecessary.
      by rewrite Hgas, Hconverted.
Qed.

(** C8, as amended: with the gas [auto] or undefined the pass returns the
    array it was given, and the state as it was.  With a number it first
    converts it, and raises what [BigNumber.from] raises, whatever the ABI.
    When the number converts it is an integer [gas], and on an array of
    objects the pass returns a new array with, entry for entry, a new
    object of the members of a function entry and the gas field
    [toHexString (gas - 1000000)], and the very object of any other entry;
    the array it was given, every other array and every object that was
    there are as they were. *)
Theorem gas_annotation (networkConfig : NetworkConfig.t)
    (store : Heap.Store) (abi : nat) :
  match NetworkConfig.gas networkConfig with
  | GasAuto | GasUndefined =>
      Heap.addGasToAbiMethodsIfNecessary networkConfig store abi
      = Ok (store, abi)
  | GasNumber gas =>
      match BigNumber_from gas with
      | Err e =>
          Heap.addGasToAbiMethodsIfNecessary networkConfig store abi = Err e
      | Ok gas' =>
          integerValue gas = Some gas'
          /\ forall elements,
               Heap.arrays store !! abi = Some elements ->
               Forall (fun element => is_Some (Heap.objects store !! element))
                      elements ->
               exists store' modifiedAbi annotated,
                 Heap.addGasToAbiMethodsIfNecessary networkConfig store abi
                 = Ok (store', modifiedAbi)
                 /\ HeapNotions.annotates (toHexString (gas' - 1000000))
                      store elements store' modifiedAbi annotated
      end
  end.
Proof.
  destruct (NetworkConfig.gas networkConfig) as [| |gas] eqn:Hgas.
  - unfold Heap.addGasToAbiMethodsIfNecessary. by rewrite Hgas.
  - unfold Heap.addGasToAbiMethodsIfNecessary. by rewrite Hgas.
  - destruct (BigNumber_from gas) as [gas'|e] eqn:Hconverted.
    + split; [by apply BigNumber_from_exact|].
      intros elements. by apply (heap_annotates networkConfig gas).
    + unfold Heap.addGasToAbiMethodsIfNecessary.
      by rewrite Hgas, Hconverted.
Qed.

End GasProperties.

(** Array 0 of the sample state under a gas of 8000000. *)
Lemma gas_annotation_witness :
  exists store' modifiedAbi annotated,
    @Heap.addGasToAbiMethodsIfNecessary sampleEthers Samples.fixedGas
      Samples.store 0
    = Ok (store', modifiedAbi)
    /\ HeapNotions.annotates (@toHexString sampleEthers (8000000 - 1000000))
         Samples.store [0; 1] store' modifiedAbi annotated.
Proof.
  apply (proj2 (@gas_annotation sampleEthers Samples.fixedGas Samples.store 0)
           [0; 1]).
  - reflexivity.
  - repeat constructor; eexists; reflexivity.
Defined.

(** What the example comes to: the new array 1 holds the new object 2,
    which is [functionEntry] with the gas field [0x6acfc0], and the object
    1 of the event; array 0 and the objects 0 and 1 are as they were. *)
Lemma gas_annotation_example :
  exists store',
    @Heap.addGasToAbiMethodsIfNecessary sampleEthers Samples.fixedGas
      Samples.store 0
    = Ok (store', 1)
    /\ Heap.arrays store' !! 1 = Some [2; 1]
    /\ Heap.arrays store' !! 0 = Some [0; 1]
    /\ Heap.objects store' !! 0 = Some Samples.functionEntry
    /\ Heap.objects store' !! 1 = Some Samples.eventEntry
    /\ Heap.objects store' !! 2
       = Some (<["gas" := JsString "0x6acfc0"]> Samples.functionEntry).
Proof. eexists. split_and!; by vm_compute. Qed.

(** A gas the conversion refuses: 2^53 - 1, and one and a half.  The pass
    raises, and no annotated sequence comes back. *)
Lemma gas_annotation_counterexample :
  @addGasToAbiMethodsIfNecessary sampleEthers
    (NetworkConfig.mk (GasNumber (integer 9007199254740991)))
    [Samples.functionEntry]
  = Err (Rejected "overflow")
  /\ @Heap.addGasToAbiMethodsIfNecessary sampleEthers
       (NetworkConfig.mk (GasNumber (integer 9007199254740991)))
       Samples.store 0
     = Err (Rejected "overflow")
  /\ @addGasToAbiMethodsIfNecessary sampleEthers
       (NetworkConfig.mk (GasNumber (Finite 3 2))) [Samples.functionEntry]
     = Err (Rejected "underflow").
Proof. split_and!; reflexivity. Qed.

(** ** Factories and named signers *)

Section EnvironmentProperties.
Context `{Ethers} {Signer : Type}.

(** C9, as amended: a factory requested by contract name, for an artifact
    whose bytecode is exactly ["0x"], fails with AbstractContractError. *)
Theorem abstract_contract_by_name (hre : HardhatRuntimeEnvironment Signer)
    (contractName : string) (signerOrOptions : option (SignerOrOptions Signer))
    (artifact : Artifact.t) :
  _getArtifact hre contractName = Ok artifact ->
  Artifact.bytecode artifact = "0x" ->
  getContractFactory hre (ByName contractName signerOrOptions)
  = Err (AbstractContractError (abstractContractMessage contractName)).
Proof.
  intros Hartifact Habstract. simpl. unfold getContractFactoryByName.
  rewrite Hartifact. unfold_bind. rewrite Habstract.
  by destruct (isFactoryOptions signerOrOptions), signerOrOptions
    as [[| |[]]|].
Qed.

(** A factory requested by ABI and bytecode is built over whatever
    bytecode [new ContractFactory] accepts, ["0x"] included;
    [getContractAt] relies on it. *)
Lemma factory_by_abi_unchecked (hre : HardhatRuntimeEnvironment Signer)
    (abi abiWithAddedGas : list AbiElement) (bytecode : string)
    (signer : Signer) :
  addGasToAbiMethodsIfNecessary (networkConfig hre) abi = Ok abiWithAddedGas ->
  checkContractFactory abiWithAddedGas bytecode = Ok tt ->
  getContractFactory hre
    (ByAbiAndBytecode abi bytecode (Some (SignerObject signer)))
  = Ok (mkContractFactory abiWithAddedGas bytecode (Some signer)).
Proof.
  intros Hgas Hchecked. simpl. unfold getContractFactoryByAbiAndBytecode.
  unfold_bind. by rewrite Hgas, Hchecked.
Qed.

(** C10: with the registry present and no entry of its own under the
    name, [getNamedSignerOrNull] raises [no account named <name>] only when
    the registry inherits no member of that name either; for an inherited
    name ([toString], [constructor], ...) it hands the member to the signer
    lookup and answers what that gives.  Whenever [null] is returned, either
    the registry has a non-empty address of its own for the name and no
    signer was produced for it, or the name is an inherited one and no
    signer was produced for the member. *)
Theorem named_signer_or_null (hre : HardhatRuntimeEnvironment Signer)
    (name : string) :
  (forall namedAccounts : NamedAccounts.t,
     getNamedAccounts hre = Some (Ok namedAccounts) ->
     NamedAccounts.own namedAccounts !! name = None ->
     getNamedSignerOrNull hre name
     = if decide (name ∈ NamedAccounts.inherited namedAccounts)
       then _getSignerOfMember hre name
       else Err (NoNamedAccount ("no account named " +:+ name)))
  /\ (getNamedSignerOrNull hre name = Ok None ->
      exists namedAccounts : NamedAccounts.t,
        getNamedAccounts hre = Some (Ok namedAccounts)
        /\ ((exists address : string,
               NamedAccounts.own namedAccounts !! name = Some address
               /\ address <> ""
               /\ _getSigner hre address = Ok None)
            \/ (NamedAccounts.own namedAccounts !! name = None
                /\ name ∈ NamedAccounts.inherited namedAccounts
                /\ _getSignerOfMember hre name = Ok None))).
Proof.
  unfold getNamedSignerOrNull, readNamedAccount. split.
  - intros namedAccounts -> Habsent. unfold_bind. rewrite Habsent.
    destruct (decide (name ∈ NamedAccounts.inherited namedAccounts));
      [|done].
    by destruct (_getSignerOfMember hre name) as [[signer|]|].
  - destruct (getNamedAccounts hre) as [[namedAccounts|]|]; unfold_bind;
      [|done..].
    destruct (NamedAccounts.own namedAccounts !! name) as [address|]
      eqn:Haddress.
    + destruct (String.eqb_spec address "") as [|Hnonempty]; [done|].
      destruct (_getSigner hre address) as [[signer|]|] eqn:Hsigner;
        unfold_bind; try done.
      intros _. exists namedAccounts. split; [done|]. left. by exists address.
    + destruct (decide (name ∈ NamedAccounts.inherited namedAccounts))
        as [Hinherited|]; [|done].
      destruct (_getSignerOfMember hre name) as [[signer|]|] eqn:Hsigner;
        unfold_bind; try done.
      intros _. exists namedAccounts. split; [done|]. by right.
Qed.

End EnvironmentProperties.

(** The abstract sample contract, requested by name. *)
Lemma abstract_contract_by_name_witness :
  @getContractFactory sampleEthers string Samples.hre (ByName "Abstract" None)
  = Err (AbstractContractError (abstractContractMessage "Abstract")).
Proof.
  apply (@abstract_contract_by_name sampleEthers string Samples.hre
           "Abstract" None Samples.abstract eq_refl eq_refl).
Defined.

(** The same request by ABI and bytecode, with the bytecode ["0x"] and a
    signer: a factory comes back. *)
Lemma abstract_contract_counterexample :
  @getContractFactory sampleEthers string Samples.hre
    (ByAbiAndBytecode [] "0x" (Some (SignerObject Samples.addrA)))
  = Ok (mkContractFactory [] "0x" (Some Samples.addrA))
  /\ @getContractAtFactory sampleEthers string Samples.hre "Abstract"
       (Some (SignerObject Samples.addrA))
     = Ok (mkContractFactory [] "0x" (Some Samples.addrA)).
Proof. split; reflexivity. Qed.

(** The sample registry is a plain object with the accounts [deployer]
    and [ghost].  [toString] is no account, yet the lookup answers with a
    signer; [nobody] is no account and no inherited name: an error;
    [ghost] is an account, but the provider has no signer for its address:
    [null]. *)
Lemma named_signer_or_null_witness :
  getNamedSignerOrNull Samples.hre "toString" = Ok (Some "toString")
  /\ getNamedSignerOrNull Samples.hre "nobody"
     = Err (NoNamedAccount "no account named nobody")
  /\ getNamedSignerOrNull Samples.hre "ghost" = Ok None
  /\ exists namedAccounts : NamedAccounts.t,
       getNamedAccounts Samples.hre = Some (Ok namedAccounts)
       /\ ((exists address : string,
              NamedAccounts.own namedAccounts !! "ghost" = Some address
              /\ address <> ""
              /\ _getSigner Samples.hre address = Ok None)
           \/ (NamedAccounts.own namedAccounts !! "ghost" = None
               /\ "ghost" ∈ NamedAccounts.inherited namedAccounts
               /\ _getSignerOfMember Samples.hre "ghost" = Ok None)).
Proof.
  split_and!.
  - apply (proj1 (named_signer_or_null Samples.hre "toString")
             _ eq_refl eq_refl).
  - apply (proj1 (named_signer_or_null Samples.hre "nobody")
             _ eq_refl eq_refl).
  - reflexivity.
  - apply (proj2 (named_signer_or_null Samples.hre "ghost") eq_refl).
Defined.

(** * Further properties *)

(** ** More on the linker's loop *)

Section LinkerLoop.
Context `{Ethers}.

Lemma resolveLibrary_unknown (artifact : Artifact.t)
    (needed : list NeededLibrary.t) (links : list (string * Link.t))
    (name address : string) :
  isAddress address = true ->
  filter (matchesLibrary name) needed = [] ->
  resolveLibrary artifact needed links (name, address)
  = Err (UnknownLibrary (unknownLibraryMessage artifact needed name)).
Proof.
  intros Hvalid Hnone. unfold resolveLibrary.
  by rewrite Hvalid, Hnone.
Qed.

(** What a successful run of the loop did, binding by binding: each
    binding had a valid address and exactly one match, and added the link
    of that match with the binding's address, in the order of the
    bindings. *)
Lemma resolveLibraries_trace (artifact : Artifact.t)
    (needed : list NeededLibrary.t) (libraries : Libraries)
    (links links' : list (string * Link.t)) :
  resolveLibraries artifact needed libraries links = Ok links' ->
  exists added,
    links' = links ++ added
    /\ Forall2 (fun entry new =>
                  isAddress entry.2 = true
                  /\ exists lib,
                       filter (matchesLibrary entry.1) needed = [lib]
                       /\ new = (fqn lib, linkOf lib entry.2))
               libraries added.
Proof.
  revert links. induction libraries as [|[name address] libraries IH];
    intros links; simpl.
  - intros [= <-]. exists []. by rewrite app_nil_r.
  - destruct (resolveLibrary artifact needed links (name, address))
      as [links1|] eqn:Hstep; unfold_bind; [|done].
    apply resolveLibrary_Ok in Hstep as (Hvalid & lib & Hmatch & _ & ->).
    intros (added & -> & Hadded)%IH.
    exists ((fqn lib, linkOf lib address) :: added).
    split; [by rewrite <- app_assoc|].
    apply Forall2_cons. split; [|done]. simpl. eauto.
Qed.

(** When the completeness check passes, the keys of the links are the
    needed fully-qualified names, up to order. *)
Lemma resolveLibraries_all (artifact : Artifact.t)
    (needed : list NeededLibrary.t) (libraries : Libraries)
    (links : list (string * Link.t)) :
  resolveLibraries artifact needed libraries [] = Ok links ->
  length needed <= length links ->
  links.*1 ≡ₚ fqn <$> needed.
Proof.
  intros Hloop Hfull.
  destruct (resolveLibraries_keys _ _ _ _ _ Hloop) as [Hnodup Hsub];
    [apply NoDup_nil_2 | by intros ? ?%elem_of_nil |].
  apply submseteq_length_Permutation; [by apply NoDup_submseteq|].
  by rewrite !length_fmap.
Qed.

(** X1: a binding the loop reaches with a valid address and an identifier
    that matches no needed library makes linking fail with UnknownLibrary;
    the message lists every needed fully-qualified name, or says that the
    contract needs no library when there is none. *)
Theorem unknown_library_reported (artifact : Artifact.t)
    (pre post : Libraries) (name address : string)
    (links : list (string * Link.t)) :
  resolveLibraries artifact (neededLibraries artifact) pre [] = Ok links ->
  isAddress address = true ->
  filter (matchesLibrary name) (neededLibraries artifact) = [] ->
  exists message,
    collectLibrariesAndLink artifact (pre ++ (name, address) :: post)
    = Err (UnknownLibrary message)
    /\ (forall lib,
          lib ∈ neededLibraries artifact ->
          occurs_in ("* " +:+ fqn lib) message)
    /\ (neededLibraries artifact = [] ->
        occurs_in "This contract doesn't need linking any libraries."
                  message).
Proof.
  intros Hpre Hvalid Hnone. eexists. split_and!.
  - apply (collectLibrariesAndLink_stops _ _ _ _ _ _ Hpre).
    by apply resolveLibrary_unknown.
  - intros lib Hneeded. unfold unknownLibraryMessage.
    assert ((0 <? length (neededLibraries artifact)) = true) as ->.
    { destruct (neededLibraries artifact); [by apply elem_of_nil in Hneeded|].
      done. }
    do 8 apply occurs_in_append_r.
    by apply occurs_in_bullets, (list_elem_of_fmap_2 fqn).
  - intros Hempty. unfold unknownLibraryMessage. rewrite Hempty. simpl.
    do 6 apply occurs_in_append_r. apply occurs_in_refl.
Qed.

(** X2: when linking returns, there were exactly as many bindings as
    needed libraries, every binding had a valid address and an identifier
    matching exactly one needed library, and the links carry the bound
    addresses in the order of the bindings. *)
Theorem linking_success_bindings (artifact : Artifact.t)
    (libraries : Libraries) (linked : string) :
  collectLibrariesAndLink artifact libraries = Ok linked ->
  length libraries = length (neededLibraries artifact)
  /\ Forall (fun entry =>
               isAddress entry.2 = true
               /\ exists lib,
                    filter (matchesLibrary entry.1)
                           (neededLibraries artifact) = [lib])
            libraries
  /\ exists linksToApply,
       resolveLibraries artifact (neededLibraries artifact) libraries []
       = Ok linksToApply
       /\ map Link.address (map_values linksToApply) = libraries.*2.
Proof.
  unfold collectLibrariesAndLink.
  destruct (resolveLibraries artifact (neededLibraries artifact) libraries [])
    as [links|] eqn:Hloop; unfold_bind; [|done].
  unfold checkAndLink.
  destruct (Nat.ltb_spec (length links) (length (neededLibraries artifact)))
    as [|Hfull]; [done|].
  intros _.
  pose proof (resolveLibraries_all _ _ _ _ Hloop Hfull) as Hperm.
  apply Permutation_length in Hperm. rewrite !length_fmap in Hperm.
  destruct (resolveLibraries_trace _ _ _ _ _ Hloop) as (added & -> & Htrace).
  simpl in *. split_and!.
  - rewrite <- Hperm. by apply Forall2_length in Htrace.
  - clear -Htrace. induction Htrace as [|entry new libs added Hone _ IH];
      [done|]. apply Forall_cons. split; [|done].
    destruct Hone as (Hvalid & lib & Hmatch & _). eauto.
  - eexists. split; [done|]. clear -Htrace. unfold map_values.
    induction Htrace as [|entry new libs added Hone _ IH]; [done|].
    destruct Hone as (_ & lib & _ & ->). simpl. by rewrite IH.
Qed.

(** ** Objects with distinct keys *)

Lemma obj_get_elem_of {V} (key : string) (value : V)
    (obj : list (string * V)) :
  NoDup obj.*1 -> (key, value) ∈ obj -> obj_get key obj = Some value.
Proof.
  induction obj as [|[k v] obj IH]; simpl; [by intros _ ?%elem_of_nil|].
  intros [Hfresh Hnodup]%NoDup_cons [[= -> ->]|Hin]%elem_of_cons.
  - by rewrite String.eqb_refl.
  - destruct (String.eqb_spec k key) as [->|]; [|by apply IH].
    destruct Hfresh. by apply (list_elem_of_fmap_2 fst _ (key, value)).
Qed.

Lemma obj_get_key {V} (key : string) (obj : list (string * V)) :
  key ∈ obj.*1 -> is_Some (obj_get key obj).
Proof.
  induction obj as [|[k v] obj IH]; simpl; [by intros ?%elem_of_nil|].
  intros [->|Hin]%elem_of_cons; [by rewrite String.eqb_refl|].
  destruct (String.eqb k key); [done | by apply IH].
Qed.

(** In a proper link-reference map, every needed library has its
    occurrences under its own names. *)
Lemma needed_declared (artifact : Artifact.t) (lib : NeededLibrary.t) :
  properLinkReferences artifact ->
  lib ∈ neededLibraries artifact ->
  isOk (lookupLinkReferences artifact (NeededLibrary.sourceName lib)
                             (NeededLibrary.libName lib)) = true.
Proof.
  unfold properLinkReferences, neededLibraries, lookupLinkReferences.
  destruct (Artifact.linkReferences artifact) as [refs|];
    [|by intros _ ?%elem_of_nil].
  intros Hproper
    ([sourceName sourceLibraries] & Hsource & Hlib)%list_elem_of_In%in_flat_map.
  apply list_elem_of_In, list_elem_of_fmap in Hlib
    as ([libName occurrences] & -> & Hlib).
  simpl. rewrite (obj_get_elem_of _ sourceLibraries);
    [|done|by apply list_elem_of_In].
  destruct (obj_get_key libName sourceLibraries) as [found ->]; [|done].
  by apply (list_elem_of_fmap_2 fst _ (libName, occurrences)).
Qed.

Lemma resolveLibrary_fresh (artifact : Artifact.t)
    (needed : list NeededLibrary.t) (links : list (string * Link.t))
    (name address : string) (lib : NeededLibrary.t) :
  isAddress address = true ->
  filter (matchesLibrary name) needed = [lib] ->
  map_has (fqn lib) links = false ->
  resolveLibrary artifact needed links (name, address)
  = Ok (links ++ [(fqn lib, linkOf lib address)]).
Proof.
  intros Hvalid Hmatch Hfresh. unfold resolveLibrary.
  rewrite Hvalid, Hmatch. simpl. rewrite Hfresh.
  by rewrite map_set_fresh.
Qed.

(** The errors of one iteration are the four of step 2. *)
Lemma resolveLibrary_errors (artifact : Artifact.t)
    (needed : list NeededLibrary.t) (links : list (string * Link.t))
    (entry : string * string) :
  match resolveLibrary artifact needed links entry with
  | Ok _
  | Err (InvalidAddress _ | UnknownLibrary _ | AmbiguousLibraryName _
        | DuplicateLinkEntry _) => True
  | Err _ => False
  end.
Proof.
  destruct entry as [name address]. unfold resolveLibrary.
  destruct (isAddress address); simpl; [|done].
  destruct (filter (matchesLibrary name) needed) as [|lib [|lib' rest]];
    simpl; try done.
  by destruct (map_has (fqn lib) links).
Qed.

(** X3: on an artifact whose link-reference map is a proper object,
    linking returns or fails with one of its five own errors; the reads of
    [artifact.linkReferences[sourceName][libraryName]] in [linkBytecode]
    never fail on the links the loop produced. *)
Theorem linking_outcomes (artifact : Artifact.t) (libraries : Libraries) :
  properLinkReferences artifact ->
  match collectLibrariesAndLink artifact libraries with
  | Ok _
  | Err (InvalidAddress _ | UnknownLibrary _ | AmbiguousLibraryName _
        | DuplicateLinkEntry _ | MissingLibraries _) => True
  | Err _ => False
  end.
Proof.
  intros Hproper. unfold collectLibrariesAndLink.
  assert (forall links,
            match resolveLibraries artifact (neededLibraries artifact)
                                   libraries links with
            | Ok _
            | Err (InvalidAddress _ | UnknownLibrary _
                  | AmbiguousLibraryName _ | DuplicateLinkEntry _) => True
            | Err _ => False
            end) as Hloop.
  { induction libraries as [|entry libraries IH]; intros links; simpl;
      [done|].
    pose proof (resolveLibrary_errors artifact (neededLibraries artifact)
                  links entry) as Hstep.
    destruct (resolveLibrary artifact (neededLibraries artifact) links entry)
      as [links1|e]; unfold_bind; [apply IH | done]. }
  specialize (Hloop []).
  destruct (resolveLibraries artifact (neededLibraries artifact) libraries [])
    as [links|e] eqn:Hrun; unfold_bind; [|by destruct e].
  unfold checkAndLink.
  destruct (length links <? length (neededLibraries artifact)); [done|].
  unfold linkBytecode. rewrite linkBytecodeFrom_applySlots; [done|].
  apply forallb_forall. intros link Hlink. apply list_elem_of_In in Hlink.
  unfold map_values in Hlink.
  apply list_elem_of_fmap in Hlink as (entry & -> & Hentry).
  pose proof (resolveLibraries_sound _ _ _ _ _ Hrun (Forall_nil_2 _))
    as Hsound.
  rewrite Forall_forall in Hsound.
  destruct (Hsound _ Hentry) as [Hneeded _].
  by apply (needed_declared artifact _ Hproper) in Hneeded.
Qed.

Lemma filter_only {A} (P : A -> Prop) `{!forall x, Decision (P x)}
    (l : list A) (x : A) :
  NoDup l -> x ∈ l -> P x -> (forall y, y ∈ l -> P y -> y = x) ->
  filter P l = [x].
Proof.
  induction l as [|y l IH]; [by intros _ ?%elem_of_nil|].
  intros [Hfresh Hnodup]%NoDup_cons Hin Hx Honly.
  destruct (decide (P y)) as [Hy|Hy].
  - assert (y = x) as -> by (apply Honly; [apply list_elem_of_here|done]).
    rewrite filter_cons_True by done. f_equal.
    destruct (filter P l) as [|z rest] eqn:Hfilter; [done|].
    assert (z ∈ filter P l) as [Hz Hzl]%list_elem_of_filter
      by (rewrite Hfilter; apply list_elem_of_here).
    assert (z = x) as -> by (apply Honly; [by apply list_elem_of_further|done]).
    done.
  - rewrite filter_cons_False by done.
    apply elem_of_cons in Hin as [->|Hin]; [done|].
    apply IH; try done. intros z Hz. apply Honly.
    by apply list_elem_of_further.
Qed.

(** X4: on a proper artifact whose needed fully-qualified names are
    pairwise distinct and where no library is called like the
    fully-qualified name of one, binding every needed library by its
    fully-qualified name to a valid address passes every check: linking is
    [linkBytecode] over one link per needed library, and it returns. *)
Theorem fully_qualified_bindings_link (artifact : Artifact.t)
    (addressOf : NeededLibrary.t -> string) :
  properLinkReferences artifact ->
  NoDup (fqn <$> neededLibraries artifact) ->
  (forall lib lib',
     lib ∈ neededLibraries artifact -> lib' ∈ neededLibraries artifact ->
     NeededLibrary.libName lib' <> fqn lib) ->
  (forall lib,
     lib ∈ neededLibraries artifact -> isAddress (addressOf lib) = true) ->
  collectLibrariesAndLink artifact
    (map (fun lib => (fqn lib, addressOf lib)) (neededLibraries artifact))
  = linkBytecode artifact
      (map (fun lib => linkOf lib (addressOf lib)) (neededLibraries artifact))
  /\ isOk (collectLibrariesAndLink artifact
             (map (fun lib => (fqn lib, addressOf lib))
                  (neededLibraries artifact))) = true.
Proof.
  intros Hproper Hdistinct Hnames Hvalid.
  set (needed := neededLibraries artifact) in *.
  set (record := fun lib => (fqn lib, linkOf lib (addressOf lib))).
  assert (forall todo done,
            needed = done ++ todo ->
            resolveLibraries artifact needed
              (map (fun lib => (fqn lib, addressOf lib)) todo)
              (map record done)
            = Ok (map record needed)) as Hloop.
  { induction todo as [|lib todo IH]; intros done Hsplit; simpl.
    - by rewrite Hsplit, app_nil_r.
    - assert (lib ∈ needed) as Hlib.
      { rewrite Hsplit. apply elem_of_app. right. apply list_elem_of_here. }
      rewrite (resolveLibrary_fresh _ _ _ _ _ lib).
      + unfold_bind.
        change [(fqn lib, linkOf lib (addressOf lib))] with (map record [lib]).
        rewrite <- map_app. apply IH. by rewrite <- app_assoc.
      + by apply Hvalid.
      + apply filter_only.
        * by apply (NoDup_fmap_1 fqn).
        * done.
        * unfold matchesLibrary. rewrite String.eqb_refl.
          by rewrite orb_true_r.
        * intros lib' Hlib' Hmatch. unfold matchesLibrary in Hmatch.
          apply Is_true_true, orb_true_iff in Hmatch
            as [Hname%String.eqb_eq|Hfqn%String.eqb_eq].
          -- by destruct (Hnames lib lib').
          -- apply list_elem_of_lookup in Hlib as [i Hi].
             apply list_elem_of_lookup in Hlib' as [j Hj].
             assert (i = j) as <-.
             { eapply NoDup_lookup; [exact Hdistinct| |];
                 rewrite list_lookup_fmap.
               - by rewrite Hi.
               - rewrite Hj. simpl. by rewrite Hfqn. }
             congruence.
      + apply map_has_false. intros Hkey.
        change (map record done).*1 with (fst <$> (record <$> done)) in Hkey.
        rewrite <- list_fmap_compose in Hkey.
        change (fst ∘ record) with fqn in Hkey.
        rewrite Hsplit, fmap_app, fmap_cons in Hdistinct.
        apply NoDup_app in Hdistinct as (_ & Hapart & _).
        apply (Hapart _ Hkey), list_elem_of_here. }
  assert (collectLibrariesAndLink artifact
            (map (fun lib => (fqn lib, addressOf lib)) needed)
          = linkBytecode artifact
              (map (fun lib => linkOf lib (addressOf lib)) needed)) as Hlink.
  { unfold collectLibrariesAndLink. fold needed.
    pose proof (Hloop needed [] eq_refl) as Hrun. simpl in Hrun.
    rewrite Hrun. unfold_bind. unfold checkAndLink.
    fold needed. rewrite length_map, Nat.ltb_irrefl.
    unfold map_values. by rewrite map_map. }
  split; [done|]. rewrite Hlink. unfold linkBytecode.
  rewrite linkBytecodeFrom_applySlots; [done|].
  apply forallb_forall. intros link Hlink'.
  apply list_elem_of_In, list_elem_of_fmap in Hlink' as (lib & -> & Hlib).
  by apply (needed_declared artifact lib Hproper).
Qed.

End LinkerLoop.

(** Decides a closed proposition by evaluation. *)
Ltac by_decision := apply (bool_decide_unpack _); vm_compute; exact I.

(** Membership in a list written out: one case per element. *)
Ltac each_element H :=
  repeat (apply elem_of_cons in H as [->|H]); [..|by apply elem_of_nil in H].

(** [Nope] bound against a contract that needs [File1.sol:Lib], and against
    one that needs nothing. *)
Lemma unknown_library_reported_witness :
  (exists message,
     @collectLibrariesAndLink sampleEthers Samples.single
       [("Nope", Samples.addrA)]
     = Err (UnknownLibrary message)
     /\ occurs_in "* File1.sol:Lib" message)
  /\ (exists message,
        @collectLibrariesAndLink sampleEthers Samples.plain
          [("Nope", Samples.addrA)]
        = Err (UnknownLibrary message)
        /\ occurs_in "This contract doesn't need linking any libraries."
                     message).
Proof.
  split.
  - destruct (@unknown_library_reported sampleEthers Samples.single [] []
                "Nope" Samples.addrA [] eq_refl eq_refl eq_refl)
      as (message & Hfails & Hlisted & _).
    exists message. split; [exact Hfails|].
    apply (Hlisted (NeededLibrary.mk "File1.sol" "Lib")).
    apply list_elem_of_here.
  - destruct (@unknown_library_reported sampleEthers Samples.plain [] []
                "Nope" Samples.addrA [] eq_refl eq_refl eq_refl)
      as (message & Hfails & _ & Hnone).
    exists message. split; [exact Hfails | exact (Hnone eq_refl)].
Defined.

(** Two needed libraries, two bindings, and the links carry [addrB] and
    [addrA] in the order they were bound. *)
Lemma linking_success_bindings_witness :
  exists linksToApply,
    @resolveLibraries sampleEthers Samples.twoLibs
      (neededLibraries Samples.twoLibs)
      [("B", Samples.addrB); ("A.sol:A", Samples.addrA)] []
    = Ok linksToApply
    /\ map Link.address (map_values linksToApply)
       = [Samples.addrB; Samples.addrA].
Proof.
  destruct (@linking_success_bindings sampleEthers Samples.twoLibs
              [("B", Samples.addrB); ("A.sol:A", Samples.addrA)]
              ("0x" +:+ "aaaaaaaaaaaaaaaaaaaaaaaaaaaaaaaaaaaaaaaa"
                    +:+ "bbbbbbbbbbbbbbbbbbbbbbbbbbbbbbbbbbbbbbbb") eq_refl)
    as (_ & _ & links & Hloop & Haddresses).
  exists links. split; [exact Hloop | exact Haddresses].
Defined.

Lemma linking_outcomes_witness :
  match @collectLibrariesAndLink sampleEthers Samples.twoLibs
          [("A", Samples.addrA); ("C", Samples.addrB)] with
  | Ok _
  | Err (InvalidAddress _ | UnknownLibrary _ | AmbiguousLibraryName _
        | DuplicateLinkEntry _ | MissingLibraries _) => True
  | Err _ => False
  end.
Proof.
  apply (@linking_outcomes sampleEthers Samples.twoLibs
           [("A", Samples.addrA); ("C", Samples.addrB)]).
  unfold properLinkReferences. simpl. by_decision.
Defined.

(** [A.sol:A] and [B.sol:B], each bound by its fully-qualified name. *)
Lemma fully_qualified_bindings_link_witness :
  @collectLibrariesAndLink sampleEthers Samples.twoLibs
    [("A.sol:A", Samples.addrA); ("B.sol:B", Samples.addrB)]
  = linkBytecode Samples.twoLibs [Samples.linkA; Samples.linkB]
  /\ isOk (@collectLibrariesAndLink sampleEthers Samples.twoLibs
             [("A.sol:A", Samples.addrA); ("B.sol:B", Samples.addrB)])
     = true.
Proof.
  apply (@fully_qualified_bindings_link sampleEthers Samples.twoLibs
           MoreSamples.addressOf).
  - unfold properLinkReferences. simpl. by_decision.
  - by_decision.
  - intros lib lib' Hlib Hlib'. simpl in Hlib, Hlib'.
    each_element Hlib; each_element Hlib'; discriminate.
  - intros lib Hlib. simpl in Hlib. each_element Hlib; reflexivity.
Defined.

(** ** More on patching *)

Lemma patchOccurrence_before (address bytecode : string)
    (ref : LinkReference.t) (i : nat) :
  i < String.length bytecode ->
  i < 2 + LinkReference.start ref * 2 ->
  get i (patchOccurrence address bytecode ref) = get i bytecode
  /\ i < String.length (patchOccurrence address bytecode ref).
Proof.
  intros Hinside Hbefore. unfold patchOccurrence, substr. split.
  - rewrite get_append, length_substring.
    destruct (Nat.ltb_spec i
                ((2 + LinkReference.start ref * 2)
                   `min` (String.length bytecode - 0))); [|lia].
    rewrite get_substring.
    destruct (Nat.ltb_spec i (2 + LinkReference.start ref * 2)); [|lia].
    by rewrite Nat.add_0_r.
  - rewrite length_append, length_substring. lia.
Qed.

Lemma applySlots_before (slots : list (LinkReference.t * string))
    (bytecode : string) (i : nat) :
  i < String.length bytecode ->
  (forall slot, slot ∈ slots -> i < 2 + LinkReference.start slot.1 * 2) ->
  get i (applySlots bytecode slots) = get i bytecode.
Proof.
  revert bytecode. induction slots as [|slot slots IH]; intros bytecode;
    [done|].
  intros Hinside Hbefore. simpl.
  destruct (patchOccurrence_before slot.2 bytecode slot.1 i)
    as [Hsame Hstill]; [done | apply Hbefore, list_elem_of_here |].
  rewrite <- Hsame. apply IH; [done|].
  intros s Hs. by apply Hbefore, list_elem_of_further.
Qed.

Lemma linkBytecodeFrom_declared (artifact : Artifact.t)
    (links : list Link.t) (bytecode linked : string) :
  linkBytecodeFrom artifact links bytecode = Ok linked ->
  forallb (declared artifact) links = true.
Proof.
  revert bytecode. induction links as [|link links IH]; intros bytecode;
    simpl; [done|].
  unfold declared at 1.
  destruct (lookupLinkReferences artifact (Link.sourceName link)
              (Link.libraryName link)); unfold_bind; [|done].
  apply IH.
Qed.

(** X5: whatever the slots are, [linkBytecode] leaves every character of
    the input before the first slot as it is; in particular the first two
    characters, the [0x] of the hex string. *)
Theorem code_before_slots_kept (artifact : Artifact.t) (links : list Link.t)
    (linked : string) :
  linkBytecode artifact links = Ok linked ->
  (forall i,
     i < String.length (Artifact.bytecode artifact) ->
     (forall slot,
        slot ∈ allSlots artifact links ->
        i < 2 + LinkReference.start slot.1 * 2) ->
     get i linked = get i (Artifact.bytecode artifact))
  /\ (forall i,
        i < 2 -> i < String.length (Artifact.bytecode artifact) ->
        get i linked = get i (Artifact.bytecode artifact)).
Proof.
  intros Hlinked.
  pose proof (linkBytecodeFrom_declared _ _ _ _ Hlinked) as Hdecl.
  unfold linkBytecode in Hlinked.
  rewrite linkBytecodeFrom_applySlots in Hlinked by done.
  injection Hlinked as <-.
  split.
  - intros i Hinside Hbefore. by apply applySlots_before.
  - intros i Hprefix Hinside. apply applySlots_before; [done|].
    intros slot _. lia.
Qed.

Lemma in_some_slot (slots : list (LinkReference.t * string)) (i : nat) :
  (exists slot, slot ∈ slots /\ inSlot i slot.1)
  \/ (forall slot, slot ∈ slots -> ~ inSlot i slot.1).
Proof.
  induction slots as [|slot slots [(s & Hs & Hi)|IH]].
  - right. by intros ? ?%elem_of_nil.
  - left. exists s. split; [by apply list_elem_of_further | done].
  - assert (inSlot i slot.1 \/ ~ inSlot i slot.1) as [Hi|Hi]
      by (unfold inSlot; lia).
    + left. exists slot. split; [apply list_elem_of_here | done].
    + right. intros s [->|Hs]%elem_of_cons; [done | by apply IH].
Qed.

(** Two strings that agree on the slots and outside them are equal. *)
Lemma applySlots_unique (slots slots' : list (LinkReference.t * string))
    (bytecode bytecode' : string) :
  forallb (slotFits bytecode) slots = true ->
  pairwiseDisjoint slots = true ->
  forallb (slotFits bytecode') slots' = true ->
  pairwiseDisjoint slots' = true ->
  (forall slot, slot ∈ slots <-> slot ∈ slots') ->
  (forall i,
     (forall slot, slot ∈ slots -> ~ inSlot i slot.1) ->
     get i bytecode' = get i bytecode) ->
  applySlots bytecode' slots' = applySlots bytecode slots.
Proof.
  intros Hfits Hdisj Hfits' Hdisj' Hsame Houtside.
  destruct (applySlots_spec _ _ Hfits Hdisj) as (_ & Hout & Hin).
  destruct (applySlots_spec _ _ Hfits' Hdisj') as (_ & Hout' & Hin').
  apply get_correct. intros i.
  destruct (in_some_slot slots i) as [(slot & Hslot & Hi)|Hnone].
  - rewrite (Hin _ _ Hslot Hi). apply Hin'; [by apply Hsame | done].
  - rewrite Hout by done. rewrite Hout'; [by apply Houtside|].
    intros slot Hslot. by apply Hnone, Hsame.
Qed.

(** X6: under the conditions of well-formed slots, linking the linked
    bytecode once more with the same links changes nothing. *)
Theorem linking_idempotent (artifact : Artifact.t) (links : list Link.t)
    (linked : string) :
  forallb (declared artifact) links = true ->
  forallb (slotFits (Artifact.bytecode artifact)) (allSlots artifact links)
  = true ->
  pairwiseDisjoint (allSlots artifact links) = true ->
  linkBytecode artifact links = Ok linked ->
  linkBytecodeFrom artifact links linked = Ok linked.
Proof.
  intros Hdecl Hfits Hdisj Hlinked. unfold linkBytecode in Hlinked.
  rewrite linkBytecodeFrom_applySlots in * by done.
  injection Hlinked as <-. f_equal.
  destruct (applySlots_spec _ _ Hfits Hdisj) as (Hlen & Hout & Hin).
  assert (forallb (slotFits (applySlots (Artifact.bytecode artifact)
                                        (allSlots artifact links)))
                  (allSlots artifact links) = true) as Hfits'.
  { apply forallb_forall. intros slot Hslot.
    rewrite (slotFits_length _ (Artifact.bytecode artifact)) by done.
    rewrite forallb_forall in Hfits. by apply Hfits. }
  destruct (applySlots_spec _ _ Hfits' Hdisj) as (_ & Hout' & Hin').
  apply get_correct. intros i.
  destruct (in_some_slot (allSlots artifact links) i)
    as [(slot & Hslot & Hi)|Hnone].
  - by rewrite (Hin' _ _ Hslot Hi), (Hin _ _ Hslot Hi).
  - by rewrite Hout'.
Qed.

Lemma slotsDisjoint_sym (r1 r2 : LinkReference.t) :
  slotsDisjoint r1 r2 = slotsDisjoint r2 r1.
Proof. unfold slotsDisjoint. apply orb_comm. Qed.

Lemma forallb_Permutation {A} (f : A -> bool) (l l' : list A) :
  l ≡ₚ l' -> forallb f l = true -> forallb f l' = true.
Proof.
  intros Hperm. rewrite !forallb_forall. intros Hall x Hx.
  apply Hall. by eapply Permutation_in; [symmetry|].
Qed.

Lemma pairwiseDisjoint_Permutation
    (slots slots' : list (LinkReference.t * string)) :
  slots ≡ₚ slots' ->
  pairwiseDisjoint slots = true -> pairwiseDisjoint slots' = true.
Proof.
  induction 1 as [|slot l l' Hperm IH|s1 s2 l|l1 l2 l3 _ IH1 _ IH2]; simpl.
  - done.
  - intros [Hhead Hrest]%andb_true_iff. apply andb_true_iff. split.
    + by apply (forallb_Permutation _ l).
    + by apply IH.
  - rewrite !andb_true_iff, (slotsDisjoint_sym s1.1 s2.1). tauto.
  - auto.
Qed.

(** X7: under the conditions of well-formed slots, the linked bytecode
    does not depend on the order of the links. *)
Theorem linking_order_independent (artifact : Artifact.t)
    (links links' : list Link.t) :
  links' ≡ₚ links ->
  forallb (declared artifact) links = true ->
  forallb (slotFits (Artifact.bytecode artifact)) (allSlots artifact links)
  = true ->
  pairwiseDisjoint (allSlots artifact links) = true ->
  linkBytecode artifact links' = linkBytecode artifact links.
Proof.
  intros Hperm Hdecl Hfits Hdisj. unfold linkBytecode.
  assert (allSlots artifact links ≡ₚ allSlots artifact links') as Hslots.
  { unfold allSlots. symmetry. by apply Permutation_flat_map. }
  rewrite !linkBytecodeFrom_applySlots;
    [|done|by apply (forallb_Permutation _ links)].
  f_equal. apply applySlots_unique; try done.
  - by apply (forallb_Permutation _ (allSlots artifact links)).
  - by apply (pairwiseDisjoint_Permutation (allSlots artifact links)).
  - intros slot. by rewrite Hslots.
Qed.

(** The truncated sample: the slot lies past the end and the address is
    appended, yet the six characters of the input stay. *)
Lemma linkBytecode_single (artifact : Artifact.t) (link : Link.t)
    (ref : LinkReference.t) :
  lookupLinkReferences artifact (Link.sourceName link)
                       (Link.libraryName link) = Ok [ref] ->
  linkBytecode artifact [link]
  = Ok (patchOccurrence (Link.address link) (Artifact.bytecode artifact) ref).
Proof. intros Hrefs. unfold linkBytecode. simpl. by rewrite Hrefs. Qed.

(** X19: an address of forty characters, as an address without its [0x]
    is, bound to a library with one slot of twenty bytes inside the
    bytecode: [linkBytecode] cuts the first two characters off all the
    same.  The slot gets the other thirty-eight, the code behind the slot
    moves up by two characters, and the result is two characters short. *)
Theorem unprefixed_address_spliced (artifact : Artifact.t) (link : Link.t)
    (ref : LinkReference.t) :
  lookupLinkReferences artifact (Link.sourceName link)
                       (Link.libraryName link) = Ok [ref] ->
  LinkReference.length ref = 20 ->
  2 + (LinkReference.start ref + 20) * 2
  <= String.length (Artifact.bytecode artifact) ->
  String.length (Link.address link) = 40 ->
  exists linked,
    linkBytecode artifact [link] = Ok linked
    /\ String.length linked + 2 = String.length (Artifact.bytecode artifact)
    /\ charRange linked (2 + LinkReference.start ref * 2)
                 (2 + LinkReference.start ref * 2 + 38)
       = substr_from (Link.address link) 2
    /\ (forall i,
          i < 2 + LinkReference.start ref * 2 ->
          get i linked = get i (Artifact.bytecode artifact))
    /\ (forall i,
          2 + LinkReference.start ref * 2 + 38 <= i ->
          get i linked = get (i + 2) (Artifact.bytecode artifact)).
Proof.
  intros Hrefs Hlength Hfits Haddress.
  eexists. split; [by apply linkBytecode_single|].
  unfold patchOccurrence. cbv zeta. rewrite Hlength.
  set (bytecode := Artifact.bytecode artifact) in *.
  set (p := 2 + LinkReference.start ref * 2).
  set (q := 2 + (LinkReference.start ref + 20) * 2) in *.
  assert (q = p + 40) as Hq by (unfold p, q; lia).
  set (stripped := substr_from (Link.address link) 2).
  assert (String.length stripped = 38) as Hstripped.
  { unfold stripped, substr_from. rewrite length_substring, Haddress. lia. }
  assert (String.length (substr bytecode 0 p) = p) as Hhead.
  { unfold substr. rewrite length_substring. lia. }
  split_and!.
  - rewrite !length_append, Hhead, Hstripped. unfold substr_from.
    rewrite length_substring. lia.
  - unfold charRange. apply get_correct. intros j.
    rewrite get_substring. replace (p + 38 - p) with 38 by lia.
    destruct (Nat.ltb_spec j 38) as [Hj|Hj].
    + rewrite get_append, Hhead.
      destruct (Nat.ltb_spec (j + p) p); [lia|].
      rewrite get_append, Hstripped.
      destruct (Nat.ltb_spec (j + p - p) 38); [|lia].
      f_equal. lia.
    + symmetry. apply get_ge. lia.
  - intros i Hi. rewrite get_append, Hhead.
    destruct (Nat.ltb_spec i p); [|lia].
    unfold substr. rewrite get_substring.
    destruct (Nat.ltb_spec i p); [|lia]. by rewrite Nat.add_0_r.
  - intros i Hi. rewrite get_append, Hhead.
    destruct (Nat.ltb_spec i p); [lia|].
    rewrite get_append, Hstripped.
    destruct (Nat.ltb_spec (i - p) 38); [lia|].
    unfold substr_from. rewrite get_substring.
    destruct (Nat.ltb_spec (i - p - 38) (String.length bytecode - q)).
    + f_equal. lia.
    + symmetry. apply get_ge. lia.
Qed.

Lemma code_before_slots_kept_witness :
  get 5 "0x6080aaaaaaaaaaaaaaaaaaaaaaaaaaaaaaaaaaaaaaaa" = get 5 "0x6080"
  /\ get 1 "0x6080aaaaaaaaaaaaaaaaaaaaaaaaaaaaaaaaaaaaaaaa" = get 1 "0x6080".
Proof.
  destruct (code_before_slots_kept Samples.truncated [Samples.linkLib]
              "0x6080aaaaaaaaaaaaaaaaaaaaaaaaaaaaaaaaaaaaaaaa" eq_refl)
    as [Hbefore Hprefix].
  split.
  - apply (Hbefore 5); [simpl; lia|].
    intros slot Hslot.
    change (slot ∈ [(Samples.slot 5, Samples.addrA)]) in Hslot.
    each_element Hslot. simpl. lia.
  - apply (Hprefix 1); simpl; lia.
Defined.

Lemma linking_idempotent_witness :
  linkBytecodeFrom Samples.single [Samples.linkLib]
    "0x6080aaaaaaaaaaaaaaaaaaaaaaaaaaaaaaaaaaaaaaaa60a0"
  = Ok "0x6080aaaaaaaaaaaaaaaaaaaaaaaaaaaaaaaaaaaaaaaa60a0".
Proof.
  apply (linking_idempotent Samples.single [Samples.linkLib]
           "0x6080aaaaaaaaaaaaaaaaaaaaaaaaaaaaaaaaaaaaaaaa60a0"
           eq_refl eq_refl eq_refl eq_refl).
Defined.

Lemma linking_order_independent_witness :
  linkBytecode Samples.twoLibs [Samples.linkB; Samples.linkA]
  = linkBytecode Samples.twoLibs [Samples.linkA; Samples.linkB].
Proof.
  apply (linking_order_independent Samples.twoLibs
           [Samples.linkA; Samples.linkB] [Samples.linkB; Samples.linkA]
           (perm_swap _ _ _) eq_refl eq_refl eq_refl).
Defined.

(** The library of the sample contract bound to an address without [0x],
    which the address check lets through: the slot of forty characters is
    filled with thirty-eight, and the first two digits of the address are
    gone. *)
Lemma unprefixed_address_spliced_witness :
  @isAddress sampleEthers Samples.unprefixed = true
  /\ @collectLibrariesAndLink sampleEthers Samples.single
       [("Lib", Samples.unprefixed)]
     = Ok "0x6080aaaaaaaaaaaaaaaaaaaaaaaaaaaaaaaaaaaaaa60a0"
  /\ exists linked,
       linkBytecode Samples.single
         [Link.mk "File1.sol" "Lib" Samples.unprefixed]
       = Ok linked
       /\ String.length linked + 2 = 50
       /\ charRange linked 6 44 = "aaaaaaaaaaaaaaaaaaaaaaaaaaaaaaaaaaaaaa".
Proof.
  split_and!; [reflexivity..|].
  destruct (unprefixed_address_spliced Samples.single
              (Link.mk "File1.sol" "Lib" Samples.unprefixed)
              (Samples.slot 2) eq_refl eq_refl)
    as (linked & Hlinked & Hlength & Hslot & _);
    [simpl; lia | reflexivity |].
  exists linked. split_and!; [exact Hlinked | exact Hlength | exact Hslot].
Defined.

(** ** Gas annotation, once more *)

Section GasComposition.
Context `{Ethers}.

Lemma isFunctionElement_gas (gasLimit : string) (abiElement : AbiElement) :
  isFunctionElement (<["gas" := JsString gasLimit]> abiElement)
  = isFunctionElement abiElement.
Proof. unfold isFunctionElement. by rewrite lookup_insert_ne. Qed.

(** X8: annotating an annotated ABI again, under the same network
    configuration, changes nothing. *)
Theorem gas_annotation_idempotent (networkConfig : NetworkConfig.t)
    (abi : list AbiElement) :
  (abiWithAddedGas ← addGasToAbiMethodsIfNecessary networkConfig abi;
   addGasToAbiMethodsIfNecessary networkConfig abiWithAddedGas)
  = addGasToAbiMethodsIfNecessary networkConfig abi.
Proof.
  unfold addGasToAbiMethodsIfNecessary.
  destruct (NetworkConfig.gas networkConfig) as [| |gas]; [done..|].
  destruct (BigNumber_from gas) as [gas'|]; unfold_bind; [|done].
  f_equal. rewrite !fold_pushWithGas, !app_nil_l, map_map.
  apply map_ext. intros abiElement.
  destruct (isFunctionElement abiElement) eqn:Hfunction; rewrite ?Hfunction;
    [|done].
  rewrite isFunctionElement_gas, Hfunction. apply insert_insert_eq.
Qed.

End GasComposition.

(** ** Factories by name *)

Section FactoryProperties.
Context `{Ethers} {Signer : Type}.

(** X9: an address string given where [getContractFactory] by name takes
    a signer or options is read as options without a signer: a factory
    that comes back is connected to the first of [hre.ethers.getSigners()],
    and no signer is looked up for the address. *)
Theorem factory_by_name_ignores_address
    (hre : HardhatRuntimeEnvironment Signer) (name address : string) :
  getContractFactory hre (ByName name (Some (AsAddress address)))
  = getContractFactory hre (ByName name None)
  /\ forall factory,
       getContractFactory hre (ByName name (Some (AsAddress address)))
       = Ok factory ->
       exists signers,
         ethersGetSigners hre = Ok signers
         /\ factorySigner factory = head signers.
Proof.
  split; [reflexivity|]. intros factory. simpl.
  unfold getContractFactoryByName.
  destruct (_getArtifact hre name) as [artifact|]; unfold_bind; [|done].
  destruct (String.eqb (Artifact.bytecode artifact) "0x"); [done|].
  destruct (collectLibrariesAndLink artifact []) as [linked|]; unfold_bind;
    [|done].
  unfold getContractFactoryByAbiAndBytecode.
  destruct (ethersGetSigners hre) as [signers|]; unfold_bind; [|done].
  destruct (addGasToAbiMethodsIfNecessary (networkConfig hre)
              (Artifact.abi artifact)) as [abiWithAddedGas|];
    unfold_bind; [|done].
  destruct (checkContractFactory abiWithAddedGas linked); unfold_bind;
    [|done].
  intros [= <-]. by exists signers.
Qed.

(** X10: a factory obtained by name comes from an artifact that is not
    abstract, carries the bytecode that linking the artifact with the
    given libraries returned, and the artifact's ABI after gas
    annotation. *)
Theorem factory_by_name_linked (hre : HardhatRuntimeEnvironment Signer)
    (name : string) (signerOrOptions : option (SignerOrOptions Signer))
    (factory : ContractFactory Signer) :
  getContractFactory hre (ByName name signerOrOptions) = Ok factory ->
  exists artifact,
    _getArtifact hre name = Ok artifact
    /\ Artifact.bytecode artifact <> "0x"
    /\ collectLibrariesAndLink artifact (librariesOf signerOrOptions)
       = Ok (factoryBytecode factory)
    /\ addGasToAbiMethodsIfNecessary (networkConfig hre)
                                      (Artifact.abi artifact)
       = Ok (factoryAbi factory).
Proof.
  simpl. unfold getContractFactoryByName.
  destruct (_getArtifact hre name) as [artifact|]; unfold_bind; [|done].
  intros Hfactory. exists artifact. split; [done|].
  assert (exists signer,
            (if String.eqb (Artifact.bytecode artifact) "0x"
             then Err (AbstractContractError (abstractContractMessage name))
             else
               match collectLibrariesAndLink artifact
                       (librariesOf signerOrOptions) with
               | Ok linked =>
                   getContractFactoryByAbiAndBytecode hre
                     (Artifact.abi artifact) linked signer
               | Err e => Err e
               end) = Ok factory) as [signer Hrun].
  { destruct signerOrOptions as [[s|a|[s l]]|]; simpl in *; eauto. }
  clear Hfactory.
  destruct (String.eqb_spec (Artifact.bytecode artifact) "0x"); [done|].
  split; [done|].
  destruct (collectLibrariesAndLink artifact (librariesOf signerOrOptions))
    as [linked|]; [|done].
  unfold getContractFactoryByAbiAndBytecode in Hrun.
  destruct (match signer with
            | Some (SignerObject s) => Ok (Some s)
            | Some (SignerAddress a) => _getSigner hre a
            | None => signers ← ethersGetSigners hre; Ok (head signers)
            end) as [signer'|]; unfold_bind; [|done].
  destruct (addGasToAbiMethodsIfNecessary (networkConfig hre)
              (Artifact.abi artifact)) as [abiWithAddedGas|];
    unfold_bind; [|done].
  destruct (checkContractFactory abiWithAddedGas linked); unfold_bind;
    [|done].
  by injection Hrun as <-.
Qed.

(** X11: [getNamedSigner] returns a signer exactly when the registry
    either has a non-empty address of its own under the name and the
    provider has that signer for it, or has no entry of its own but
    inherits a member of that name and the signer lookup handed that member
    gives that signer; where [getNamedSignerOrNull] answers [null] it
    raises [no signer for <name>]. *)
Theorem named_signer_found (hre : HardhatRuntimeEnvironment Signer)
    (name : string) :
  (forall signer,
     getNamedSigner hre name = Ok signer
     <-> exists namedAccounts : NamedAccounts.t,
           getNamedAccounts hre = Some (Ok namedAccounts)
           /\ ((exists address : string,
                  NamedAccounts.own namedAccounts !! name = Some address
                  /\ address <> ""
                  /\ _getSigner hre address = Ok (Some signer))
               \/ (NamedAccounts.own namedAccounts !! name = None
                   /\ name ∈ NamedAccounts.inherited namedAccounts
                   /\ _getSignerOfMember hre name = Ok (Some signer))))
  /\ (getNamedSignerOrNull hre name = Ok None ->
      getNamedSigner hre name
      = Err (NoSignerFound ("no signer for " +:+ name))).
Proof.
  unfold getNamedSigner. split.
  - intros signer. unfold getNamedSignerOrNull, readNamedAccount. split.
    + destruct (getNamedAccounts hre) as [[namedAccounts|]|]; unfold_bind;
        [|done..].
      destruct (NamedAccounts.own namedAccounts !! name) as [address|]
        eqn:Haddress.
      * destruct (String.eqb_spec address "") as [|Hnonempty]; [done|].
        destruct (_getSigner hre address) as [[found|]|] eqn:Hsigner;
          unfold_bind; try done.
        intros [= ->]. exists namedAccounts. split; [done|]. left.
        by exists address.
      * destruct (decide (name ∈ NamedAccounts.inherited namedAccounts))
          as [Hinherited|]; [|done].
        destruct (_getSignerOfMember hre name) as [[found|]|] eqn:Hsigner;
          unfold_bind; try done.
        intros [= ->]. exists namedAccounts. split; [done|]. by right.
    + intros (namedAccounts & -> & Hcase). unfold_bind.
      destruct Hcase as [(address & Haddress & Hnonempty & Hsigner)
                        |(Habsent & Hinherited & Hsigner)].
      * rewrite Haddress. destruct (String.eqb_spec address ""); [done|].
        by rewrite Hsigner.
      * rewrite Habsent, decide_True by done. by rewrite Hsigner.
  - by intros ->.
Qed.

End FactoryProperties.

(** Annotating twice with gas 8000000. *)
Lemma gas_annotation_idempotent_witness :
  @addGasToAbiMethodsIfNecessary sampleEthers Samples.fixedGas
    [<["gas" := JsString "0x6acfc0"]> Samples.functionEntry;
     Samples.eventEntry]
  = Ok [<["gas" := JsString "0x6acfc0"]> Samples.functionEntry;
        Samples.eventEntry].
Proof.
  apply (@gas_annotation_idempotent sampleEthers Samples.fixedGas
           [Samples.functionEntry; Samples.eventEntry]).
Defined.

(** [addrB] is given as the signer of a factory by name; the factory is
    connected to [addrA], the first signer of the environment. *)
Lemma factory_by_name_ignores_address_witness :
  @getContractFactory sampleEthers string MoreSamples.plainHre
    (ByName "P" (Some (AsAddress Samples.addrB)))
  = Ok (mkContractFactory [] "0x608060a0" (Some Samples.addrA))
  /\ exists signers,
       ethersGetSigners MoreSamples.plainHre = Ok signers
       /\ Some Samples.addrA = head signers.
Proof.
  split; [reflexivity|].
  apply (proj2 (@factory_by_name_ignores_address sampleEthers string
                  MoreSamples.plainHre "P" Samples.addrB)
           (mkContractFactory [] "0x608060a0" (Some Samples.addrA))).
  reflexivity.
Defined.

(** The sample contract by name, with its library bound in the options. *)
Lemma factory_by_name_linked_witness :
  exists artifact,
    _getArtifact Samples.hre "C" = Ok artifact
    /\ Artifact.bytecode artifact <> "0x"
    /\ @collectLibrariesAndLink sampleEthers artifact
         [("Lib", Samples.addrA)]
       = Ok "0x6080aaaaaaaaaaaaaaaaaaaaaaaaaaaaaaaaaaaaaaaa60a0".
Proof.
  destruct (@factory_by_name_linked sampleEthers string Samples.hre "C"
              (Some (AsOptions
                       (mkFactoryOptions None
                          (Some [("Lib", Samples.addrA)]))))
              (mkContractFactory []
                 "0x6080aaaaaaaaaaaaaaaaaaaaaaaaaaaaaaaaaaaaaaaa60a0"
                 (Some Samples.addrA)) eq_refl)
    as (artifact & Hartifact & Hconcrete & Hlinked & _).
  exists artifact. split_and!; [exact Hartifact | exact Hconcrete |].
  exact Hlinked.
Defined.

(** [deployer] has an address and a signer; [ghost] has an address and no
    signer; [toString] is no account, and a signer is returned for it. *)
Lemma named_signer_found_witness :
  getNamedSigner Samples.hre "deployer" = Ok Samples.addrA
  /\ getNamedSigner Samples.hre "ghost"
     = Err (NoSignerFound "no signer for ghost")
  /\ getNamedSigner Samples.hre "toString" = Ok "toString".
Proof.
  split_and!.
  - apply (proj1 (named_signer_found Samples.hre "deployer")).
    eexists. split; [reflexivity|]. left. eexists.
    split_and!; [reflexivity | discriminate | reflexivity].
  - apply (proj2 (named_signer_found Samples.hre "ghost")). reflexivity.
  - apply (proj1 (named_signer_found Samples.hre "toString")).
    eexists. split; [reflexivity|]. right.
    split_and!; [reflexivity | by_decision | reflexivity].
Defined.

(** ** Signers by name, by list and by address *)

(** Unfolds the sequencing of [Outcome]. *)
Ltac unfold_outcome :=
  unfold mbind, Outcome_bind, liftResult in *; simpl in *.

Section HelperProperties.
Context `{Ethers} {Signer Contract : Type} `{EthersContract Signer Contract}.

Lemma signerIfAny_Some (env : Environment Signer) (address : string)
    (signer : Signer) :
  signerIfAny env address = Some signer
  <-> address <> "" /\ _getSigner (hre env) address = Ok (Some signer).
Proof.
  unfold signerIfAny. destruct (String.eqb_spec address "") as [->|Hne].
  - split; [done | by intros [? _]].
  - destruct (_getSigner (hre env) address) as [[found|]|]; split;
      first [ done | by intros [= ->] | by intros [_ [= ->]]
            | by intros [_ ?] ].
Qed.

Lemma addNamedSigner_signerIfAny (env : Environment Signer)
    (name address : string) (namedSigners : gmap string Signer) :
  addNamedSigner env name address namedSigners
  = match signerIfAny env address with
    | Some signer => <[name := signer]> namedSigners
    | None => namedSigners
    end.
Proof.
  unfold addNamedSigner, signerIfAny.
  destruct (String.eqb address ""); [done|].
  by destruct (_getSigner (hre env) address) as [[signer|]|].
Qed.

(** The loop over the registry, name by name. *)
Lemma namedSigners_lookup (env : Environment Signer)
    (namedAccounts : gmap string string) (name : string) :
  map_fold (addNamedSigner env) ∅ namedAccounts !! name
  = namedAccounts !! name ≫= signerIfAny env.
Proof.
  revert name.
  apply (map_fold_weak_ind
           (fun (namedSigners : gmap string Signer)
                (namedAccounts : gmap string string) =>
              forall name,
                namedSigners !! name
                = namedAccounts !! name ≫= signerIfAny env)).
  - intros name. by rewrite !lookup_empty.
  - intros key address accounts namedSigners Hfresh IH name.
    rewrite addNamedSigner_signerIfAny.
    destruct (decide (key = name)) as [->|Hother].
    + rewrite lookup_insert_eq. simpl.
      destruct (signerIfAny env address) as [signer|].
      * by rewrite lookup_insert_eq.
      * by rewrite IH, Hfresh.
    + rewrite (lookup_insert_ne accounts) by done.
      destruct (signerIfAny env address) as [signer|]; [|by apply IH].
      by rewrite lookup_insert_ne.
Qed.

(** X12: with the registry at hand, [getNamedSigners] returns, whatever
    the signer lookups do: its result has a signer under a name exactly
    when the registry has a non-empty address under that name and the
    lookup for the address gave a signer; names whose lookup raised or gave
    none are left out. *)
Theorem named_signers_collected (env : Environment Signer)
    (namedAccounts : NamedAccounts.t) :
  getNamedAccounts (hre env) = Some (Ok namedAccounts) ->
  exists namedSigners : gmap string Signer,
    getNamedSigners env = Ok namedSigners
    /\ forall name signer,
         namedSigners !! name = Some signer
         <-> exists address,
               NamedAccounts.own namedAccounts !! name = Some address
               /\ address <> ""
               /\ _getSigner (hre env) address = Ok (Some signer).
Proof.
  intros Hregistry. unfold getNamedSigners. rewrite Hregistry. unfold_bind.
  eexists. split; [done|]. intros name signer.
  rewrite namedSigners_lookup.
  destruct (NamedAccounts.own namedAccounts !! name) as [address|]; simpl.
  - rewrite signerIfAny_Some. split.
    + intros [Hne Hsigner]. by exists address.
    + by intros (? & [= <-] & Hne & Hsigner).
  - split; [done | by intros (? & ? & _)].
Qed.

(** X13: for a name the registry has an entry of its own for, or
    inherits no member of, the bulk lookup and the single lookup agree: the
    name has a signer in the result of [getNamedSigners] exactly when
    [getNamedSignerOrNull] returns that signer for it.  For an inherited
    name that is no entry of the registry they part: the bulk result has
    nothing under the name, and the single lookup answers what the signer
    lookup gives for the inherited member. *)
Theorem named_signers_agree (env : Environment Signer)
    (namedAccounts : NamedAccounts.t) (namedSigners : gmap string Signer)
    (name : string) :
  getNamedAccounts (hre env) = Some (Ok namedAccounts) ->
  getNamedSigners env = Ok namedSigners ->
  (is_Some (NamedAccounts.own namedAccounts !! name)
   \/ name ∉ NamedAccounts.inherited namedAccounts ->
   forall signer,
     namedSigners !! name = Some signer
     <-> getNamedSignerOrNull (hre env) name = Ok (Some signer))
  /\ (NamedAccounts.own namedAccounts !! name = None ->
      name ∈ NamedAccounts.inherited namedAccounts ->
      namedSigners !! name = None
      /\ getNamedSignerOrNull (hre env) name
         = _getSignerOfMember (hre env) name).
Proof.
  unfold getNamedSigners, getNamedSignerOrNull, readNamedAccount.
  intros ->. unfold_bind. intros [= <-]. rewrite namedSigners_lookup.
  destruct (NamedAccounts.own namedAccounts !! name) as [address|]; simpl.
  - split; [|done]. intros _ signer. rewrite signerIfAny_Some.
    destruct (String.eqb_spec address "") as [->|Hne];
      [by split; [intros []|]|].
    destruct (_getSigner (hre env) address) as [[found|]|]; unfold_bind.
    + split; [by intros [_ [= ->]] | by intros [= ->]].
    + split; [by intros [_ ?] | done].
    + split; [by intros [_ ?] | done].
  - split.
    + intros [[? [=]]|Hown] signer. by rewrite decide_False.
    + intros _ Hinherited. split; [done|]. rewrite decide_True by done.
      by destruct (_getSignerOfMember (hre env) name) as [[signer|]|].
Qed.

Lemma fold_pushUnnamedSigner (env : Environment Signer)
    (unnamedAccounts : list string) (unnamedSigners : list Signer) :
  fold_left (pushUnnamedSigner env) unnamedAccounts unnamedSigners
  = unnamedSigners ++ omap (signerIfAny env) unnamedAccounts.
Proof.
  revert unnamedSigners.
  induction unnamedAccounts as [|address unnamedAccounts IH];
    intros unnamedSigners; simpl; [by rewrite app_nil_r|].
  rewrite IH. unfold pushUnnamedSigner, signerIfAny.
  destruct (String.eqb address ""); [done|].
  destruct (_getSigner (hre env) address) as [[signer|]|]; try done.
  by rewrite <- app_assoc.
Qed.

Lemma length_omap_le {A B} (f : A -> option B) (l : list A) :
  length (omap f l) <= length l.
Proof.
  induction l as [|x l IH]; simpl; [done|].
  change (list_omap A B f l) with (omap f l).
  destruct (f x); simpl; lia.
Qed.

(** X14: with the unnamed accounts at hand, [getUnnamedSigners] returns,
    whatever the signer lookups do: the signers of the accounts that have
    one, in the order of the accounts; empty addresses and accounts whose
    lookup raised or gave none are skipped. *)
Theorem unnamed_signers_collected (env : Environment Signer)
    (unnamedAccounts : list string) :
  getUnnamedAccounts env = Some (Ok unnamedAccounts) ->
  exists unnamedSigners,
    getUnnamedSigners env = Ok unnamedSigners
    /\ unnamedSigners = omap (signerIfAny env) unnamedAccounts
    /\ length unnamedSigners <= length unnamedAccounts
    /\ forall signer,
         signer ∈ unnamedSigners
         <-> exists address,
               address ∈ unnamedAccounts
               /\ address <> ""
               /\ _getSigner (hre env) address = Ok (Some signer).
Proof.
  intros Haccounts. unfold getUnnamedSigners. rewrite Haccounts. unfold_bind.
  rewrite fold_pushUnnamedSigner, app_nil_l.
  eexists. split_and!; [done | done | apply length_omap_le |].
  intros signer. rewrite list_elem_of_omap.
  split; intros (address & Hin & Hsigner); exists address;
    (split; [done|]); by apply signerIfAny_Some.
Qed.

Lemma promiseAll_Ok {A} (calls : list (Result A)) (results : list A) :
  promiseAll calls = Ok results
  <-> Forall2 (fun call result => call = Ok result) calls results.
Proof.
  revert results. induction calls as [|call calls IH]; intros results; simpl.
  - split; [intros [= <-]; constructor | by intros ->%Forall2_nil_inv_l].
  - destruct call as [a|e]; unfold_bind.
    + destruct (promiseAll calls) as [others|] eqn:Hall; unfold_bind.
      * split.
        -- intros [= <-]. constructor; [done | by apply IH].
        -- intros (a' & rest & [= <-] & Hrest%IH & ->)%Forall2_cons_inv_l.
           by injection Hrest as ->.
      * split; [done|].
        intros (a' & rest & _ & Hrest%IH & _)%Forall2_cons_inv_l. done.
    + split; [done|].
      by intros (a' & rest & ? & _)%Forall2_cons_inv_l.
Qed.

(** X15: [getSigners] returns exactly when the account list is at hand
    and the signer lookup of every account returns; the result then holds
    the lookup's answer for each account, in the order of the accounts.
    Unlike the two loops above, one failing lookup fails the whole call. *)
Theorem signers_of_accounts (env : Environment Signer)
    (signers : list (option Signer)) :
  getSigners env = Ok signers
  <-> exists accounts,
        listAccounts env = Ok accounts
        /\ Forall2 (fun account signer =>
                      _getSigner (hre env) account = Ok signer)
                   accounts signers.
Proof.
  unfold getSigners.
  destruct (listAccounts env) as [accounts|]; unfold_bind.
  - rewrite promiseAll_Ok, Forall2_fmap_l. split.
    + intros Hall. by exists accounts.
    + by intros (? & [= <-] & Hall).
  - split; [done | by intros (? & ? & _)].
Qed.

(** X16: [getSigner] and [getSignerOrNull] refuse the empty address with
    [need to specify address] before any lookup; for any other address
    [getSigner] returns exactly the signer the lookup gave, and where the
    lookup gave none [getSignerOrNull] answers [null] and [getSigner]
    raises [no signer for <address>]. *)
Theorem signer_by_address (env : Environment Signer) :
  getSignerOrNull env "" = Thrown (NeedAddress "need to specify address")
  /\ getSigner env "" = Thrown (NeedAddress "need to specify address")
  /\ forall address,
       address <> "" ->
       (forall signer,
          getSigner env address = Returned signer
          <-> _getSigner (hre env) address = Ok (Some signer))
       /\ (_getSigner (hre env) address = Ok None ->
           getSignerOrNull env address = Returned None
           /\ getSigner env address
              = Thrown (Raised (NoSignerFound
                                  ("no signer for " +:+ address)))).
Proof.
  split_and!; [done..|]. intros address Hne.
  unfold getSigner, getSignerOrNull.
  destruct (String.eqb_spec address ""); [done|].
  destruct (_getSigner (hre env) address) as [[found|]|]; unfold_outcome.
  - split; [|done]. intros signer. split; by intros [= ->].
  - split; [|done]. intros signer. by split.
  - split; [|done]. intros signer. by split.
Qed.

(** X17: [getContractOrNull] needs the deployment plugin; it answers
    [null] exactly when [getOrNull] answers [undefined], and [getContract]
    then raises [No Contract deployed with name <name>]; a [null] answer
    of [getOrNull] is read as a deployment and raises a TypeError. *)
Theorem deployed_contract_lookup (env : Environment Signer)
    (contractName : string) (signer : option (SignerArg Signer)) :
  (deploymentsGetArtifact (hre env) = None ->
   getContractOrNull env contractName signer
   = Err (NoDeploymentPluginInstalled noDeploymentPluginMessage))
  /\ (getContractOrNull env contractName signer = Ok None
      <-> is_Some (deploymentsGetArtifact (hre env))
          /\ deploymentsGetOrNull env contractName = Ok Undefined)
  /\ (getContractOrNull env contractName signer = Ok None ->
      getContract env contractName signer
      = Thrown (NoContractDeployed
                  ("No Contract deployed with name " +:+ contractName)))
  /\ (is_Some (deploymentsGetArtifact (hre env)) ->
      deploymentsGetOrNull env contractName = Ok Null ->
      getContractOrNull env contractName signer = Err TypeError).
Proof.
  unfold getContract, getContractOrNull. split_and!.
  - by intros ->.
  - destruct (deploymentsGetArtifact (hre env)) as [getArtifact|];
      [|by split; [|intros [[? ?] _]]].
    destruct (deploymentsGetOrNull env contractName) as [[| |deployment]|];
      unfold_bind; try by (split; [|intros [_ ?]]).
    split; [|by intros [_ ?]].
    by match goal with
       | |- match ?run with Ok _ => _ | Err _ => _ end = _ -> _ =>
           destruct run
       end.
  - by intros ->.
  - intros [getArtifact ->] ->. done.
Qed.

(** X18: for a deployed name [getContract] annotates the deployment's
    ABI with gas and calls [new Contract] with the deployment's address,
    the annotated ABI and the signer that was given; without a signer
    argument, with the first of [hre.ethers.getSigners()], and with the
    provider when there is none.  It returns the contract, or raises what
    the annotation or [new Contract] raised. *)
Theorem deployed_contract_connection (env : Environment Signer)
    (contractName : string) (deployment : Deployment.t) :
  is_Some (deploymentsGetArtifact (hre env)) ->
  deploymentsGetOrNull env contractName = Ok (Value deployment) ->
  (forall signer,
     getContract env contractName (Some (SignerObject signer))
     = liftResult
         (abiWithAddedGas ←
            addGasToAbiMethodsIfNecessary (networkConfig (hre env))
                                          (Deployment.abi deployment);
          newContract (Deployment.address deployment) abiWithAddedGas
                      (UseSigner signer)))
  /\ (forall signers,
        ethersGetSigners (hre env) = Ok signers ->
        getContract env contractName None
        = liftResult
            (abiWithAddedGas ←
               addGasToAbiMethodsIfNecessary (networkConfig (hre env))
                                             (Deployment.abi deployment);
             newContract (Deployment.address deployment) abiWithAddedGas
                         match head signers with
                         | Some signer => UseSigner signer
                         | None => UseProvider
                         end)).
Proof.
  intros [getArtifact Hplugin] Hdeployed.
  unfold getContract, getContractOrNull. rewrite Hplugin, Hdeployed.
  split.
  - intros signer. unfold getContractAt. unfold_bind.
    destruct (addGasToAbiMethodsIfNecessary (networkConfig (hre env))
                (Deployment.abi deployment)) as [abiWithAddedGas|];
      unfold_outcome; [|done].
    by destruct (newContract (Deployment.address deployment) abiWithAddedGas
                   (UseSigner signer)).
  - intros signers Hsigners. unfold getContractAt. unfold_bind.
    rewrite Hsigners. unfold_bind.
    destruct (addGasToAbiMethodsIfNecessary (networkConfig (hre env))
                (Deployment.abi deployment)) as [abiWithAddedGas|];
      unfold_outcome; [|done].
    by destruct (newContract (Deployment.address deployment) abiWithAddedGas
                   _).
Qed.

End HelperProperties.

(** *** The helpers on a concrete environment *)

(** [deployer] has a signer; the lookup for [broken] raises, and the name
    is left out. *)
Lemma named_signers_collected_witness :
  exists namedSigners : gmap string string,
    getNamedSigners MoreSamples.env = Ok namedSigners
    /\ namedSigners !! "deployer" = Some Samples.addrA
    /\ namedSigners !! "broken" = None.
Proof.
  destruct (named_signers_collected MoreSamples.env _ eq_refl)
    as (namedSigners & Hrun & Hsigners).
  exists namedSigners. split_and!; [exact Hrun | |].
  - apply Hsigners. exists Samples.addrA.
    split_and!; [reflexivity | discriminate | reflexivity].
  - destruct (namedSigners !! "broken") as [signer|] eqn:Hbroken;
      [|reflexivity].
    apply Hsigners in Hbroken as (address & Haddress & _ & Hsigner).
    vm_compute in Haddress. injection Haddress as <-.
    vm_compute in Hsigner. discriminate Hsigner.
Defined.

(** [deployer] is an account, with the same signer in both lookups;
    [toString] is none: nothing in the bulk result, a signer from the
    single lookup. *)
Lemma named_signers_agree_witness :
  exists namedSigners : gmap string string,
    getNamedSigners MoreSamples.env = Ok namedSigners
    /\ namedSigners !! "deployer" = Some Samples.addrA
    /\ namedSigners !! "toString" = None
    /\ getNamedSignerOrNull MoreSamples.pluginHre "toString"
       = Ok (Some "toString").
Proof.
  eexists. split; [reflexivity|]. split_and!.
  - apply (proj1 (named_signers_agree MoreSamples.env _ _ "deployer"
                    eq_refl eq_refl)); [|reflexivity].
    left. by eexists.
  - apply (proj2 (named_signers_agree MoreSamples.env _ _ "toString"
                    eq_refl eq_refl)); [reflexivity | by_decision].
  - apply (proj2 (named_signers_agree MoreSamples.env _ _ "toString"
                    eq_refl eq_refl)); [reflexivity | by_decision].
Defined.

(** Of the five unnamed accounts, the first and the last have a signer. *)
Lemma unnamed_signers_collected_witness :
  exists unnamedSigners,
    getUnnamedSigners MoreSamples.env = Ok unnamedSigners
    /\ unnamedSigners = [MoreSamples.addrC; Samples.addrA]
    /\ length unnamedSigners <= 5.
Proof.
  destruct (unnamed_signers_collected MoreSamples.env
              [MoreSamples.addrC; ""; Samples.addrB; MoreSamples.addrD;
               Samples.addrA] eq_refl)
    as (unnamedSigners & Hrun & Hsigners & Hlength & _).
  exists unnamedSigners. split_and!; [exact Hrun | exact Hsigners |].
  exact Hlength.
Defined.

Lemma signers_of_accounts_witness :
  getSigners MoreSamples.env
  = Ok [Some Samples.addrA; Some MoreSamples.addrC].
Proof.
  apply (proj2 (signers_of_accounts MoreSamples.env
                  [Some Samples.addrA; Some MoreSamples.addrC])).
  exists [Samples.addrA; MoreSamples.addrC]. split; [reflexivity|].
  repeat constructor.
Defined.

Lemma signer_by_address_witness :
  getSigner MoreSamples.env Samples.addrA = Returned Samples.addrA
  /\ getSignerOrNull MoreSamples.env Samples.addrB = Returned None
  /\ getSigner MoreSamples.env Samples.addrB
     = Thrown (Raised (NoSignerFound
                         ("no signer for " +:+ Samples.addrB))).
Proof.
  destruct (signer_by_address MoreSamples.env) as (_ & _ & Hgiven).
  split.
  - apply (proj1 (Hgiven Samples.addrA ltac:(discriminate))). reflexivity.
  - apply (proj2 (Hgiven Samples.addrB ltac:(discriminate))). reflexivity.
Defined.

(** [Missing] is not deployed; [Broken] is answered with [null]. *)
Lemma deployed_contract_lookup_witness :
  @getContractOrNull sampleEthers string MoreSamples.SampleContract
    MoreSamples.sampleContracts MoreSamples.env "Missing" None
  = Ok None
  /\ @getContract sampleEthers string MoreSamples.SampleContract
       MoreSamples.sampleContracts MoreSamples.env "Missing" None
     = Thrown (NoContractDeployed "No Contract deployed with name Missing")
  /\ @getContractOrNull sampleEthers string MoreSamples.SampleContract
       MoreSamples.sampleContracts MoreSamples.env "Broken" None
     = Err TypeError.
Proof.
  destruct (@deployed_contract_lookup sampleEthers string
              MoreSamples.SampleContract MoreSamples.sampleContracts
              MoreSamples.env "Missing" None)
    as (_ & Hnull & Hraises & _).
  destruct (@deployed_contract_lookup sampleEthers string
              MoreSamples.SampleContract MoreSamples.sampleContracts
              MoreSamples.env "Broken" None)
    as (_ & _ & _ & Hbroken).
  assert (@getContractOrNull sampleEthers string MoreSamples.SampleContract
            MoreSamples.sampleContracts MoreSamples.env "Missing" None
          = Ok None) as Hmissing.
  { apply Hnull. split; [by eexists | reflexivity]. }
  split_and!; [exact Hmissing | exact (Hraises Hmissing) |].
  apply Hbroken; [by eexists | reflexivity].
Defined.

(** [Token], deployed at [addrB]: with the signer [addrA], and without a
    signer in an environment that has no account.  [Bare], whose ABI ethers
    refuses: [new Contract] raises. *)
Lemma deployed_contract_connection_witness :
  @getContract sampleEthers string MoreSamples.SampleContract
    MoreSamples.sampleContracts MoreSamples.env "Token"
    (Some (SignerObject Samples.addrA))
  = Returned (Samples.addrB,
              [<["gas" := JsString "0x6acfc0"]> Samples.functionEntry],
              UseSigner Samples.addrA)
  /\ @getContract sampleEthers string MoreSamples.SampleContract
       MoreSamples.sampleContracts MoreSamples.lonelyEnv "Token" None
     = Returned (Samples.addrB,
                 [<["gas" := JsString "0x6acfc0"]> Samples.functionEntry],
                 UseProvider)
  /\ @getContract sampleEthers string MoreSamples.SampleContract
       MoreSamples.sampleContracts MoreSamples.env "Bare"
       (Some (SignerObject Samples.addrA))
     = Thrown (Raised (Rejected "unable to determine stateMutability")).
Proof.
  split_and!.
  - apply (proj1 (@deployed_contract_connection sampleEthers string
                    MoreSamples.SampleContract MoreSamples.sampleContracts
                    MoreSamples.env "Token"
                    (Deployment.mk [Samples.functionEntry] Samples.addrB)
                    (ex_intro _ _ eq_refl) eq_refl)).
  - apply (proj2 (@deployed_contract_connection sampleEthers string
                    MoreSamples.SampleContract MoreSamples.sampleContracts
                    MoreSamples.lonelyEnv "Token"
                    (Deployment.mk [Samples.functionEntry] Samples.addrB)
                    (ex_intro _ _ eq_refl) eq_refl)
             [] eq_refl).
  - apply (proj1 (@deployed_contract_connection sampleEthers string
                    MoreSamples.SampleContract MoreSamples.sampleContracts
                    MoreSamples.env "Bare"
                    (Deployment.mk [Samples.bareFunctionEntry] Samples.addrB)
                    (ex_intro _ _ eq_refl) eq_refl)).
Defined.
